(** * restclient: a shallow embedding of [restclient/__init__.py]

    The module is a thin layer over httplib2: it normalises parameter and
    header dictionaries, chooses a body encoding, hands one request to the
    transport and post-processes the response.  Everything below is translated
    function by function from the Python source (Python 3 semantics: the
    module uses [urllib.parse] and bytes literals).

    Conventions of the embedding
    - a Python [str] is the list of its code points, [bytes] the list of its
      octets (both [list N]; the constructor of [pyval] tells them apart);
    - a raised exception is a value [Raise e] of the [result] type;
    - a [dict] is CPython's entry table: insertion ordered, a deleted entry
      leaves a hole, and a key iterator checks the table the way
      [dictiter_iternextkey] does (CPython 3.8 and later);
    - the standard library and httplib2 are collaborators: the ones whose
      behaviour is simple and fixed ([str], the codecs, [urlencode]) are
      written out, the others ([urlparse], the JSON codec, the MIME table, the
      HTTP transport) are fields of the [Runtime] class. *)

From Stdlib Require Import List NArith ZArith Bool Arith Lia String Ascii.
From Stdlib Require Import DecimalString.
Import ListNotations.

Set Implicit Arguments.
Set Warnings "-register-all".
Local Open Scope N_scope.

(** ** Text *)

Abbreviation ustr := (list N) (only parsing).
Abbreviation bytes := (list N) (only parsing).

Definition u (s : string) : ustr := map N_of_ascii (list_ascii_of_string s).

Fixpoint list_eqb (a b : list N) : bool :=
  match a, b with
  | [], [] => true
  | x :: a', y :: b' => N.eqb x y && list_eqb a' b'
  | _, _ => false
  end.

Fixpoint startswith (s p : list N) : bool :=
  match p, s with
  | [], _ => true
  | y :: p', x :: s' => N.eqb x y && startswith s' p'
  | _ :: _, [] => false
  end.

Definition endswith (s p : list N) : bool := startswith (rev s) (rev p).

Definition str_in (c : N) (s : list N) : bool := existsb (N.eqb c) s.

(** [sep.join(l)] *)
Fixpoint join (sep : ustr) (l : list ustr) : ustr :=
  match l with
  | [] => []
  | [x] => x
  | x :: rest => x ++ sep ++ join sep rest
  end.

(** ** Values, exceptions *)

Inductive pyval : Type :=
| VNone
| VBool (b : bool)
| VInt (z : Z)
| VStr (s : ustr)
| VBytes (b : bytes).

Inductive exn : Type :=
| KeyError
| RuntimeError
| TypeError
| AttributeError
| UnicodeEncodeError
| ValueError
| JSONDecodeError
| TransportError.

Inductive result (A : Type) : Type :=
| Ok (a : A)
| Raise (e : exn).

Arguments Ok {A} a.
Arguments Raise {A} e.

Definition rbind {A B} (r : result A) (f : A -> result B) : result B :=
  match r with
  | Ok a => f a
  | Raise e => Raise e
  end.

Declare Scope py_scope.
Delimit Scope py_scope with py.
Notation "x <- c1 ;; c2" := (rbind c1 (fun x => c2))
  (at level 100, c1 at next level, right associativity) : py_scope.
Notation "' pat <- c1 ;; c2" := (rbind c1 (fun x => match x with pat => c2 end))
  (at level 100, pat pattern, c1 at next level, right associativity) : py_scope.
Local Open Scope py_scope.

Definition is_ok {A} (r : result A) : bool :=
  match r with Ok _ => true | Raise _ => false end.

(** ** The builtins the module calls *)

Definition isinstance_str (v : pyval) : bool :=
  match v with VStr _ => true | _ => false end.

Definition isinstance_bytes (v : pyval) : bool :=
  match v with VBytes _ => true | _ => false end.

Definition is_ascii (s : list N) : bool := forallb (fun c => N.ltb c 128) s.

(** [s.encode('ascii')] *)
Definition encode_ascii (s : ustr) : result bytes :=
  if is_ascii s then Ok s else Raise UnicodeEncodeError.

(** [s.encode('ascii', 'ignore')] *)
Definition encode_ascii_ignore (s : ustr) : bytes :=
  filter (fun c => N.ltb c 128) s.

Definition is_surrogate (c : N) : bool := N.leb 55296 c && N.leb c 57343.

Definition utf8_char (c : N) : result bytes :=
  if N.ltb c 128 then Ok [c]
  else if N.ltb c 2048 then
    Ok [N.lor 192 (N.shiftr c 6); N.lor 128 (N.land c 63)]
  else if N.ltb c 65536 then
    if is_surrogate c then Raise UnicodeEncodeError
    else Ok [N.lor 224 (N.shiftr c 12);
             N.lor 128 (N.land (N.shiftr c 6) 63);
             N.lor 128 (N.land c 63)]
  else if N.ltb c 1114112 then
    Ok [N.lor 240 (N.shiftr c 18);
        N.lor 128 (N.land (N.shiftr c 12) 63);
        N.lor 128 (N.land (N.shiftr c 6) 63);
        N.lor 128 (N.land c 63)]
  else Raise UnicodeEncodeError.

(** [s.encode('utf8')] *)
Fixpoint encode_utf8 (s : ustr) : result bytes :=
  match s with
  | [] => Ok []
  | c :: s' =>
      b <- utf8_char c ;;
      r <- encode_utf8 s' ;;
      Ok (b ++ r)
  end.

(** [v.encode(...)] on an arbitrary object: only [str] has the method. *)
Definition method_encode_ascii (v : pyval) : result pyval :=
  match v with
  | VStr s => b <- encode_ascii s ;; Ok (VBytes b)
  | _ => Raise AttributeError
  end.

Definition method_encode_utf8 (v : pyval) : result pyval :=
  match v with
  | VStr s => b <- encode_utf8 s ;; Ok (VBytes b)
  | _ => Raise AttributeError
  end.

Definition method_encode_ascii_ignore (v : pyval) : result pyval :=
  match v with
  | VStr s => Ok (VBytes (encode_ascii_ignore s))
  | _ => Raise AttributeError
  end.

Definition hex_digit (n : N) : N :=
  if N.ltb n 10 then 48 + n else 87 + n.

Definition HEX_digit (n : N) : N :=
  if N.ltb n 10 then 48 + n else 55 + n.

(** One octet of [repr(bytes)], [q] being the quote in use. *)
Definition repr_byte (q : N) (b : N) : ustr :=
  if N.eqb b q || N.eqb b 92 then [92; b]
  else if N.eqb b 9 then u "\t"
  else if N.eqb b 10 then u "\n"
  else if N.eqb b 13 then u "\r"
  else if N.ltb b 32 || N.leb 127 b then
    u "\x" ++ [hex_digit (N.div b 16); hex_digit (N.modulo b 16)]
  else [b].

Definition repr_bytes (b : bytes) : ustr :=
  let q := if str_in 39 b && negb (str_in 34 b) then 34 else 39 in
  [98; q] ++ flat_map (repr_byte q) b ++ [q].

(** [str(v)] *)
Definition py_str (v : pyval) : ustr :=
  match v with
  | VNone => u "None"
  | VBool true => u "True"
  | VBool false => u "False"
  | VInt z => u (NilZero.string_of_int (Z.to_int z))
  | VStr s => s
  | VBytes b => repr_bytes b
  end.

(** [len(s)] rendered by [str]. *)
Definition str_of_nat (n : nat) : ustr := py_str (VInt (Z.of_nat n)).

(** Python's [==] on the values that serve as dictionary keys: [True == 1]
    and [False == 0], a [str] never equals a [bytes]. *)
Definition int_of_key (v : pyval) : option Z :=
  match v with
  | VBool b => Some (if b then 1%Z else 0%Z)
  | VInt z => Some z
  | _ => None
  end.

Definition key_eqb (a b : pyval) : bool :=
  match a, b with
  | VNone, VNone => true
  | VStr s, VStr t => list_eqb s t
  | VBytes s, VBytes t => list_eqb s t
  | _, _ =>
      match int_of_key a, int_of_key b with
      | Some x, Some y => Z.eqb x y
      | _, _ => false
      end
  end.

(** ** Dictionaries

    The entry table of a CPython [dict]: entries in insertion order, [None]
    where an entry was deleted.  Assigning to a key that is present replaces
    the value in place; assigning to a new key appends an entry; deleting
    leaves a hole.  The table is never compacted here (CPython compacts only
    when an insertion finds the key table full). *)

Section Dict.
Variable V : Type.

Definition pydict := list (option (pyval * V)).

(** [ma_used] *)
Fixpoint dict_len (d : pydict) : nat :=
  match d with
  | [] => O
  | Some _ :: d' => S (dict_len d')
  | None :: d' => dict_len d'
  end.

Fixpoint lookup (d : pydict) (k : pyval) : option V :=
  match d with
  | [] => None
  | None :: d' => lookup d' k
  | Some (k', v) :: d' => if key_eqb k' k then Some v else lookup d' k
  end.

(** [k in d] *)
Definition contains (d : pydict) (k : pyval) : bool :=
  match lookup d k with Some _ => true | None => false end.

(** [d[k]] *)
Definition getitem (d : pydict) (k : pyval) : result V :=
  match lookup d k with Some v => Ok v | None => Raise KeyError end.

Fixpoint replace (d : pydict) (k : pyval) (v : V) : pydict :=
  match d with
  | [] => []
  | None :: d' => None :: replace d' k v
  | Some (k', v') :: d' =>
      if key_eqb k' k then Some (k', v) :: d'
      else Some (k', v') :: replace d' k v
  end.

(** [d[k] = v] *)
Definition setitem (d : pydict) (k : pyval) (v : V) : pydict :=
  if contains d k then replace d k v else d ++ [Some (k, v)].

Fixpoint remove (d : pydict) (k : pyval) : pydict :=
  match d with
  | [] => []
  | None :: d' => None :: remove d' k
  | Some (k', v') :: d' =>
      if key_eqb k' k then None :: d'
      else Some (k', v') :: remove d' k
  end.

(** [del d[k]] *)
Definition delitem (d : pydict) (k : pyval) : result pydict :=
  if contains d k then Ok (remove d k) else Raise KeyError.

(** [d.items()] as a list *)
Fixpoint items (d : pydict) : list (pyval * V) :=
  match d with
  | [] => []
  | None :: d' => items d'
  | Some kv :: d' => kv :: items d'
  end.

(** truth value of a dict *)
Definition dict_truthy (d : pydict) : bool :=
  match dict_len d with O => false | S _ => true end.

(** Keys of a dict are pairwise different. *)
Fixpoint dict_wf (d : pydict) : bool :=
  match d with
  | [] => true
  | None :: d' => dict_wf d'
  | Some (k, _) :: d' => negb (contains d' k) && dict_wf d'
  end.

(** First live entry at index [pos] or later. *)
Fixpoint next_entry (d : pydict) (pos : nat) : option (nat * pyval) :=
  match d with
  | [] => None
  | e :: d' =>
      match pos with
      | S p =>
          match next_entry d' p with
          | Some (i, k) => Some (S i, k)
          | None => None
          end
      | O =>
          match e with
          | Some (k, _) => Some (O, k)
          | None =>
              match next_entry d' O with
              | Some (i, k) => Some (S i, k)
              | None => None
              end
          end
      end
  end.

(** [for k in d.keys(): d = body k d], with the key iterator of CPython:
    [used] is the size the dict had when the iterator was made ([di_used]),
    [pos] the next index to look at ([di_pos]) and [len] the number of keys
    still expected ([len]).  Each step first compares sizes ("dictionary
    changed size during iteration"), then looks for the next live entry;
    finding one when none is expected is "dictionary keys changed during
    iteration". *)
Fixpoint for_keys (body : pyval -> pydict -> result pydict)
         (used pos len : nat) (d : pydict) : result pydict :=
  if negb (Nat.eqb used (dict_len d)) then Raise RuntimeError
  else
    match next_entry d pos with
    | None => Ok d
    | Some (i, k) =>
        match len with
        | O => Raise RuntimeError
        | S len' =>
            d' <- body k d ;;
            for_keys body used (S i) len' d'
        end
    end.

Definition for_each_key (body : pyval -> pydict -> result pydict)
           (d : pydict) : result pydict :=
  for_keys body (dict_len d) O (dict_len d) d.
End Dict.

Arguments dict_len {V} d.
Arguments lookup {V} d k.
Arguments contains {V} d k.
Arguments getitem {V} d k.
Arguments replace {V} d k v.
Arguments setitem {V} d k v.
Arguments remove {V} d k.
Arguments delitem {V} d k.
Arguments items {V} d.
Arguments dict_truthy {V} d.
Arguments dict_wf {V} d.
Arguments next_entry {V} d pos.
Arguments for_keys {V} body used pos len d.
Arguments for_each_key {V} body d.

(** A dict display [{k1: v1, ...}]. *)
Definition dict_of {V} (l : list (pyval * V)) : pydict V :=
  fold_left (fun d kv => setitem d (fst kv) (snd kv)) l [].

(** [d if d is not None else {}] *)
Definition or_empty {V} (o : option (pydict V)) : pydict V :=
  match o with Some d => d | None => [] end.

(** ** Normalisation of parameters, headers and files *)

(** Body of the first loop of [fix_params]. *)
Definition fix_params_key (k : pyval) (params : pydict pyval)
  : result (pydict pyval) :=
  if negb (isinstance_str k) then
    let new_k := VStr (py_str k) in
    v <- getitem params k ;;
    delitem (setitem params new_k v) k
  else
    match method_encode_ascii k with
    | Ok _ => Ok params
    | Raise UnicodeEncodeError =>
        new_k <- method_encode_utf8 k ;;
        v <- getitem params k ;;
        delitem (setitem params new_k v) k
    | Raise e => Raise e
    end.

(** Body of the second loop of [fix_params]. *)
Definition fix_params_value (k : pyval) (params : pydict pyval)
  : result (pydict pyval) :=
  v <- getitem params k ;;
  let params :=
    if negb (isinstance_str v) then setitem params k (VStr (py_str v))
    else params in
  v <- getitem params k ;;
  match method_encode_ascii v with
  | Ok _ => Ok params
  | Raise UnicodeEncodeError =>
      v <- getitem params k ;;
      new_v <- method_encode_utf8 v ;;
      Ok (setitem params k new_v)
  | Raise e => Raise e
  end.

Definition fix_params (params : option (pydict pyval))
  : result (pydict pyval) :=
  let params := or_empty params in
  params <- for_each_key fix_params_key params ;;
  params <- for_each_key fix_params_value params ;;
  Ok params.

(** Body of the loop of [fix_headers]. *)
Definition fix_headers_step (k : pyval) (headers : pydict pyval)
  : result (pydict pyval) :=
  headers <-
    (if negb (isinstance_str k) then
       let new_k := VStr (py_str k) in
       v <- getitem headers k ;;
       delitem (setitem headers new_k v) k
     else Ok headers) ;;
  v <- getitem headers k ;;
  let headers :=
    if negb (isinstance_str v) then setitem headers k (VStr (py_str v))
    else headers in
  v <- getitem headers k ;;
  match (_ <- method_encode_ascii v ;; method_encode_ascii k) with
  | Ok _ => Ok headers
  | Raise UnicodeEncodeError =>
      new_k <- method_encode_ascii_ignore k ;;
      v <- getitem headers k ;;
      new_v <- method_encode_ascii_ignore v ;;
      delitem (setitem headers new_k new_v) k
  | Raise e => Raise e
  end.

Definition fix_headers (headers : option (pydict pyval))
  : result (pydict pyval) :=
  let headers := or_empty headers in
  for_each_key fix_headers_step headers.

(** An entry of the [files] mapping: [{'file': ..., 'filename': ...}]. *)
Record upload : Type := { file : pyval; filename : pyval }.

Definition fix_files_key (k : pyval) (files : pydict upload)
  : result (pydict upload) :=
  files <-
    (if negb (isinstance_str k) then
       let new_k := VStr (py_str k) in
       v <- getitem files k ;;
       delitem (setitem files new_k v) k
     else Ok files) ;;
  match method_encode_ascii k with
  | Ok _ => Ok files
  | Raise UnicodeEncodeError =>
      new_k <- method_encode_utf8 k ;;
      v <- getitem files k ;;
      delitem (setitem files new_k v) k
  | Raise e => Raise e
  end.

Definition fix_files_filename (k : pyval) (files : pydict upload)
  : result (pydict upload) :=
  f <- getitem files k ;;
  match method_encode_ascii (filename f) with
  | Ok _ => Ok files
  | Raise UnicodeEncodeError =>
      f <- getitem files k ;;
      new_name <- method_encode_utf8 (filename f) ;;
      f <- getitem files k ;;
      Ok (setitem files k {| file := file f; filename := new_name |})
  | Raise e => Raise e
  end.

Definition fix_files (files : option (pydict upload))
  : result (pydict upload) :=
  let files := or_empty files in
  files <- for_each_key fix_files_key files ;;
  for_each_key fix_files_filename files.

(** [add_accepts]: the caller's [Accept] entry is overwritten. *)
Definition add_accepts (accept : option (list ustr))
           (headers : option (pydict pyval)) : pydict pyval :=
  let accept := match accept with Some a => a | None => [] end in
  let headers := or_empty headers in
  match accept with
  | _ :: _ => setitem headers (VStr (u "Accept")) (VStr (join (u ",") accept))
  | [] => setitem headers (VStr (u "Accept")) (VStr (u "*/*"))
  end.

(** ** urllib.parse.urlencode

    [urlencode(query)] with its default arguments: every key and value goes
    through [quote_plus] ([bytes] as they are, anything else through [str]
    and UTF-8), pairs are joined with [&]. *)

Definition always_safe (b : N) : bool :=
  (N.leb 48 b && N.leb b 57) || (N.leb 65 b && N.leb b 90)
  || (N.leb 97 b && N.leb b 122) || str_in b (u "_.-~").

Definition quote_plus_byte (b : N) : ustr :=
  if N.eqb b 32 then u "+"
  else if always_safe b then [b]
  else 37 :: [HEX_digit (N.div b 16); HEX_digit (N.modulo b 16)].

Definition quote_plus (v : pyval) : result ustr :=
  match v with
  | VBytes b => Ok (flat_map quote_plus_byte b)
  | _ => b <- encode_utf8 (py_str v) ;; Ok (flat_map quote_plus_byte b)
  end.

Fixpoint urlencode_pairs (l : list (pyval * pyval)) : result (list ustr) :=
  match l with
  | [] => Ok []
  | (k, v) :: l' =>
      k' <- quote_plus k ;;
      v' <- quote_plus v ;;
      r <- urlencode_pairs l' ;;
      Ok ((k' ++ u "=" ++ v') :: r)
  end.

Definition urlencode (query : pydict pyval) : result ustr :=
  l <- urlencode_pairs (items query) ;;
  Ok (join (u "&") l).

(** ** Collaborators *)

Inductive json : Type :=
| JNull
| JBool (b : bool)
| JInt (z : Z)
| JStr (s : ustr)
| JList (l : list json)
| JObj (o : list (ustr * json)).

(** What the dispatcher returns as content: the bytes of the body, or the
    value [json.loads] made of them. *)
Inductive content : Type :=
| Raw (b : bytes)
| Decoded (j : json).

(** An [httplib2.Response]: a status and a mapping of lower-case header
    names. *)
Record response : Type := { status : Z; resp_headers : list (ustr * ustr) }.

Fixpoint resp_lookup (h : list (ustr * ustr)) (k : ustr) : option ustr :=
  match h with
  | [] => None
  | (k', v) :: h' => if list_eqb k' k then Some v else resp_lookup h' k
  end.

(** [resp[k]] *)
Definition resp_getitem (r : response) (k : ustr) : result ustr :=
  match resp_lookup (resp_headers r) k with
  | Some v => Ok v
  | None => Raise KeyError
  end.

(** What [h.request(url, method, body, headers)] is called with, together
    with how [h] was set up. *)
Record request : Type := {
  req_url : ustr;
  req_method : ustr;
  req_body : ustr;
  req_headers : pydict pyval;
  req_credentials : option (pyval * pyval);
  req_config : pydict pyval
}.

Class Runtime : Type := {
  (** [urllib.parse.urlparse]: scheme, netloc, path, params, query, fragment *)
  urlparse : ustr -> result (ustr * ustr * ustr * ustr * ustr * ustr);
  (** [json.dumps] of a parameter mapping *)
  json_dumps : pydict pyval -> result ustr;
  (** [json.loads] of a [str] or [bytes] *)
  json_loads : pyval -> result json;
  (** [mimetypes.guess_type(filename)[0]] *)
  guess_type : pyval -> result (option ustr);
  (** the server behind [httplib2.Http.request] *)
  http_request : request -> result (response * bytes)
}.

(** ** The state the module works on *)

(** An [HTTPCallback] object, as far as [_rest_invoke] reads it. *)
Record HTTPCallback : Type := {
  cb_method : ustr;
  cb_url : ustr;
  cb_queryString : ustr;
  cb_params : list (pyval * pyval);
  cb_headers : list (pyval * pyval)
}.

(** The arguments of [_rest_invoke]. *)
Record invoke_args : Type := {
  a_url : ustr;
  a_method : ustr;
  a_params : option (pydict pyval);
  a_files : option (pydict upload);
  a_accept : option (list ustr);
  a_headers : option (pydict pyval);
  a_resp : bool;
  a_httpcallback : option HTTPCallback;
  a_credentials : option (pyval * pyval);
  a_httplib_params : option (pydict pyval)
}.

(** A [threading.Thread] object: it runs its target once [start()] has been
    called on it. *)
Record thread : Type := { thread_args : invoke_args; started : bool }.

Record world : Type := {
  debuglevel : pyval;        (* httplib2.debuglevel *)
  sent : list request;       (* requests handed to the transport, oldest first *)
  threads : list thread      (* Thread objects made so far *)
}.

Definition M (A : Type) : Type := world -> result A * world.

Definition ret {A} (a : A) : M A := fun w => (Ok a, w).

Definition bind {A B} (m : M A) (f : A -> M B) : M B :=
  fun w =>
    match m w with
    | (Ok a, w') => f a w'
    | (Raise e, w') => (Raise e, w')
    end.

Definition lift {A} (r : result A) : M A := fun w => (r, w).

Declare Scope io_scope.
Delimit Scope io_scope with io.
Notation "x <-- c1 ;; c2" := (bind c1 (fun x => c2))
  (at level 100, c1 at next level, right associativity) : io_scope.
Notation "' pat <-- c1 ;; c2" := (bind c1 (fun x => match x with pat => c2 end))
  (at level 100, pat pattern, c1 at next level, right associativity) : io_scope.
Local Open Scope io_scope.

Definition get_debuglevel : M pyval := fun w => (Ok (debuglevel w), w).

Definition set_debuglevel (v : pyval) : M unit :=
  fun w => (Ok tt, {| debuglevel := v; sent := sent w; threads := threads w |}).

(** [h.request(...)]: the request reaches the transport, which answers or
    raises. *)
Definition transport_request `{Runtime} (r : request) : M (response * bytes) :=
  fun w =>
    (http_request r,
     {| debuglevel := debuglevel w; sent := sent w ++ [r];
        threads := threads w |}).

(** [threading.Thread(target=_rest_invoke, args=...)] *)
Definition Thread (args : invoke_args) : M thread :=
  fun w =>
    let t := {| thread_args := args; started := false |} in
    (Ok t, {| debuglevel := debuglevel w; sent := sent w;
              threads := threads w ++ [t] |}).

(** ** The functions of the module *)

Inductive retval : Type :=
| RNone
| RContent (c : content)
| RPair (r : response) (c : content).

(** [b.startswith(prefix)] and [b.endswith(suffix)] on a [bytes] object: the
    argument has to be [bytes] too. *)
Definition bytes_startswith (b : bytes) (prefix : pyval) : result bool :=
  match prefix with
  | VBytes p => Ok (startswith b p)
  | _ => Raise TypeError
  end.

Definition bytes_endswith (b : bytes) (suffix : pyval) : result bool :=
  match suffix with
  | VBytes p => Ok (endswith b p)
  | _ => Raise TypeError
  end.

(** [a and b] on a condition that may raise *)
Definition and_then (a : bool) (b : result bool) : result bool :=
  if a then b else Ok false.

Definition BOUNDARY : ustr := u "----------ThIs_Is_tHe_bouNdaRY_$".
Definition CRLF : ustr := [13; 10].
Definition QUOTE : ustr := [34].

(** What the module does once [httplib_params] is at hand: take
    [debuglevel] out of it into the global, keep the rest for [Http]. *)
Definition take_debuglevel (httplib_params : pydict pyval)
  : M (pydict pyval) :=
  if contains httplib_params (VStr (u "debuglevel")) then
    v <-- lift (getitem httplib_params (VStr (u "debuglevel"))) ;;
    _ <-- set_debuglevel v ;;
    lift (delitem httplib_params (VStr (u "debuglevel")))
  else ret httplib_params.

Section Module.
Context `{RT : Runtime}.

Definition get_content_type (filename : pyval) : result ustr :=
  t <- guess_type filename ;;
  Ok match t with
     | Some ((_ :: _) as s) => s
     | _ => u "application/octet-stream"
     end.

Fixpoint encode_fields (fields : list (pyval * pyval)) : list ustr :=
  match fields with
  | [] => []
  | (key, value) :: rest =>
      [u "--" ++ BOUNDARY;
       u "Content-Disposition: form-data; name=" ++ QUOTE ++ py_str key
         ++ QUOTE;
       [];
       py_str value] ++ encode_fields rest
  end.

Fixpoint encode_files (files : list (pyval * pyval * pyval))
  : result (list ustr) :=
  match files with
  | [] => Ok []
  | (key, filename, value) :: rest =>
      t <- get_content_type filename ;;
      r <- encode_files rest ;;
      Ok ([u "--" ++ BOUNDARY;
           u "Content-Disposition: form-data; name=" ++ QUOTE ++ py_str key
             ++ QUOTE ++ u "; filename=" ++ QUOTE ++ py_str filename
             ++ QUOTE;
           u "Content-Type: " ++ t;
           [];
           py_str value] ++ r)
  end.

Definition encode_multipart_formdata (fields : list (pyval * pyval))
           (files : list (pyval * pyval * pyval)) : result (ustr * ustr) :=
  let L := encode_fields fields in
  Lf <- encode_files files ;;
  let L := L ++ Lf in
  let L := L ++ [u "--" ++ BOUNDARY ++ u "--"] in
  let L := L ++ [[]] in
  let L := map (fun l => py_str (VStr l)) L in
  let body := join CRLF L in
  let content_type := u "multipart/form-data; boundary=" ++ BOUNDARY in
  Ok (content_type, body).

Definition post_multipart (host selector method : ustr)
           (fields : list (pyval * pyval))
           (files : list (pyval * pyval * pyval))
           (headers : option (pydict pyval)) (return_resp : bool)
           (scheme : ustr) (credentials : option (pyval * pyval))
           (httplib_params : option (pydict pyval)) : M retval :=
  let headers := or_empty headers in
  let httplib_params := or_empty httplib_params in
  '(content_type, body) <-- lift (encode_multipart_formdata fields files) ;;
  orig_debuglevel <-- get_debuglevel ;;
  httplib_params <-- take_debuglevel httplib_params ;;
  let headers :=
    setitem headers (VStr (u "Content-Length"))
            (VStr (str_of_nat (List.length body))) in
  let headers := setitem headers (VStr (u "Content-Type")) (VStr content_type) in
  '(resp, content) <--
    transport_request
      {| req_url := scheme ++ u "://" ++ host ++ selector;
         req_method := method; req_body := body; req_headers := headers;
         req_credentials := credentials; req_config := httplib_params |} ;;
  _ <-- set_debuglevel orig_debuglevel ;;
  ct <-- lift (resp_getitem resp (u "content-type")) ;;
  content <-- lift
    (if startswith ct (u "application/json") then
       j <- json_loads (VBytes content) ;; Ok (Decoded j)
     else
       c1 <- and_then (list_eqb method (u "GET"))
               (a <- bytes_startswith content (VStr (u "{")) ;;
                and_then a (bytes_endswith content (VStr (u "}")))) ;;
       if c1 then j <- json_loads (VBytes content) ;; Ok (Decoded j)
       else
         c2 <- and_then (list_eqb method (u "GET"))
                 (a <- bytes_startswith content (VStr (u "[")) ;;
                  and_then a (bytes_endswith content (VStr (u "]")))) ;;
         if c2 then j <- json_loads (VBytes content) ;; Ok (Decoded j)
         else Ok (Raw content)) ;;
  ret (if return_resp then RPair resp content else RContent content).

Definition non_multipart (params : ustr) (host method path : ustr)
           (headers : pydict pyval) (return_resp : bool) (scheme : ustr)
           (credentials : option (pyval * pyval))
           (httplib_params : option (pydict pyval)) : M retval :=
  let httplib_params := or_empty httplib_params in
  let '(headers, path, params) :=
    if list_eqb method (u "GET") then
      let headers :=
        setitem headers (VStr (u "Content-Length")) (VStr (u "0")) in
      match params with
      | _ :: _ =>
          let path :=
            if negb (str_in 63 path) then path ++ u "?" ++ params
            else if endswith path (u "?") then path ++ params
            else path ++ u "&" ++ params in
          (headers, path, [])
      | [] => (headers, path, params)
      end
    else
      (setitem headers (VStr (u "Content-Length"))
               (VStr (str_of_nat (List.length params))), path, params) in
  orig_debuglevel <-- get_debuglevel ;;
  httplib_params <-- take_debuglevel httplib_params ;;
  let url := scheme ++ u "://" ++ host ++ path in
  '(resp, content) <--
    transport_request
      {| req_url := url; req_method := method; req_body := params;
         req_headers := headers; req_credentials := credentials;
         req_config := httplib_params |} ;;
  _ <-- set_debuglevel orig_debuglevel ;;
  ct <-- lift (resp_getitem resp (u "content-type")) ;;
  content <-- lift
    (if startswith ct (u "application/json") then
       j <- json_loads (VBytes content) ;; Ok (Decoded j)
     else
       c1 <- and_then (list_eqb method (u "GET"))
               (a <- bytes_startswith content (VBytes (u "{")) ;;
                and_then a (bytes_endswith content (VBytes (u "}")))) ;;
       if c1 then j <- json_loads (VBytes content) ;; Ok (Decoded j)
       else
         c2 <- and_then (list_eqb method (u "GET"))
                 (a <- bytes_startswith content (VBytes (u "[")) ;;
                  and_then a (bytes_endswith content (VBytes (u "]")))) ;;
         if c2 then j <- json_loads (VBytes content) ;; Ok (Decoded j)
         else Ok (Raw content)) ;;
  ret (if return_resp then RPair resp content else RContent content).

Definition my_urlparse (url : ustr) : result (ustr * ustr * ustr) :=
  '(scheme, host, path, ps, query, fragment) <- urlparse url ;;
  let path := match ps with _ :: _ => path ++ u ";" ++ ps | [] => path end in
  let path :=
    match query with _ :: _ => path ++ u "?" ++ query | [] => path end in
  Ok (scheme, host, path).

Definition extract_host (url : ustr) : result ustr :=
  '(_, host, _) <- my_urlparse url ;; Ok host.

Definition extract_scheme (url : ustr) : result ustr :=
  '(scheme, _, _) <- my_urlparse url ;; Ok scheme.

Definition extract_path (url : ustr) : result ustr :=
  '(_, _, path) <- my_urlparse url ;; Ok path.
End Module.

(** What the variable [params] of [_rest_invoke] holds: the caller's dict at
    first, the encoded text after the encoding step. *)
Inductive params_obj : Type :=
| PDict (d : pydict pyval)
| PStr (s : ustr).

Fixpoint mapM {A B} (f : A -> result B) (l : list A) : result (list B) :=
  match l with
  | [] => Ok []
  | a :: l' => b <- f a ;; r <- mapM f l' ;; Ok (b :: r)
  end.

Definition dict_keys {V} (d : pydict V) : list pyval := map fst (items d).

(** [[(k, params[k]) for k in params.keys()]]; a [str] has no [keys]. *)
Definition unpack_params (params : params_obj)
  : result (list (pyval * pyval)) :=
  match params with
  | PStr _ => Raise AttributeError
  | PDict d => mapM (fun k => v <- getitem d k ;; Ok (k, v)) (dict_keys d)
  end.

Definition unpack_files (files : pydict upload)
  : result (list (pyval * pyval * pyval)) :=
  mapM (fun k =>
          f <- getitem files k ;;
          f' <- getitem files k ;;
          Ok (k, filename f, file f'))
       (dict_keys files).

Definition default {A} (d : A) (o : option A) : A :=
  match o with Some a => a | None => d end.

Definition is_post_or_put (method : ustr) : bool :=
  list_eqb method (u "POST") || list_eqb method (u "PUT").

Section Invoke.
Context `{RT : Runtime}.

(** The [httpcallback is not None] block of [_rest_invoke] (its warnings
    are printed and have no other effect). *)
Definition apply_callback (cb : HTTPCallback) (params headers : pydict pyval)
  : result (ustr * ustr * pydict pyval * pydict pyval) :=
  let method := cb_method cb in
  let url := cb_url cb in
  url <-
    match cb_queryString cb with
    | [] => Ok url
    | _ :: _ =>
        if negb (str_in 63 url) then Ok (url ++ u "?" ++ cb_queryString cb)
        else Raise TypeError     (* "&" * queryString *)
    end ;;
  let params :=
    fold_left (fun d kv => setitem d (fst kv) (snd kv)) (cb_params cb) params in
  let headers :=
    fold_left (fun d kv => setitem d (fst kv) (snd kv)) (cb_headers cb)
              headers in
  Ok (method, url, params, headers).

(** The encoding step of [_rest_invoke]: headers and encoded parameters. *)
Definition encode_params (method : ustr) (params headers : pydict pyval)
  : result (pydict pyval * ustr) :=
  if is_post_or_put method
     && negb (contains headers (VStr (u "Content-Type"))) then
    let headers :=
      setitem headers (VStr (u "Content-Type"))
              (VStr (u "application/x-www-form-urlencoded")) in
    p <- fix_params (Some params) ;;
    s <- urlencode p ;;
    Ok (headers, s)
  else
    c <- and_then (is_post_or_put method)
           (v <- getitem headers (VStr (u "Content-Type")) ;;
            Ok (key_eqb v (VStr (u "application/json")))) ;;
    if c then
      s <- json_dumps params ;;
      Ok (headers, s)
    else
      (* GET and DELETE requests *)
      p <- fix_params (Some params) ;;
      s <- urlencode p ;;
      Ok (headers, s).

Definition _rest_invoke (url method : ustr)
           (params : option (pydict pyval)) (files : option (pydict upload))
           (accept : option (list ustr)) (headers : option (pydict pyval))
           (resp : bool) (httpcallback : option HTTPCallback)
           (credentials : option (pyval * pyval))
           (httplib_params : option (pydict pyval)) : M retval :=
  let params := or_empty params in
  let files := or_empty files in
  let accept := default [] accept in
  let headers := or_empty headers in
  '(method, url, params, headers) <--
    lift match httpcallback with
         | Some cb => apply_callback cb params headers
         | None => Ok (method, url, params, headers)
         end ;;
  let headers := add_accepts (Some accept) (Some headers) in
  '(headers, params) <-- lift (encode_params method params headers) ;;
  if dict_truthy files then
    host <-- lift (extract_host url) ;;
    path <-- lift (extract_path url) ;;
    fields <-- lift (unpack_params (PStr params)) ;;
    files <-- lift (fix_files (Some files)) ;;
    files <-- lift (unpack_files files) ;;
    headers <-- lift (fix_headers (Some headers)) ;;
    scheme <-- lift (extract_scheme url) ;;
    post_multipart host path method fields files (Some headers) resp scheme
                   credentials httplib_params
  else
    host <-- lift (extract_host url) ;;
    path <-- lift (extract_path url) ;;
    headers <-- lift (fix_headers (Some headers)) ;;
    scheme <-- lift (extract_scheme url) ;;
    non_multipart params host method path headers resp scheme credentials
                  httplib_params.

Definition invoke (a : invoke_args) : M retval :=
  _rest_invoke (a_url a) (a_method a) (a_params a) (a_files a) (a_accept a)
               (a_headers a) (a_resp a) (a_httpcallback a) (a_credentials a)
               (a_httplib_params a).

(** [rest_invoke]: with [do_async] a [Thread] object is made for
    [_rest_invoke] and the function ends, returning [None]; [start()] is
    not called on the object. *)
Definition rest_invoke (url method : ustr)
           (params : option (pydict pyval)) (files : option (pydict upload))
           (accept : option (list ustr)) (headers : option (pydict pyval))
           (do_async resp : bool) (httpcallback : option HTTPCallback)
           (credentials : option (pyval * pyval))
           (httplib_params : option (pydict pyval)) : M retval :=
  if do_async then
    _ <-- Thread {| a_url := url; a_method := method; a_params := params;
                    a_files := files; a_accept := accept;
                    a_headers := headers; a_resp := resp;
                    a_httpcallback := httpcallback;
                    a_credentials := credentials;
                    a_httplib_params := httplib_params |} ;;
    ret RNone
  else
    _rest_invoke url method params files accept headers resp httpcallback
                 credentials httplib_params.


Definition POST (url : ustr) (params : option (pydict pyval))
           (files : option (pydict upload)) (accept : option (list ustr))
           (headers : option (pydict pyval)) (do_async : option bool)
           (resp : bool) (credentials : option (pyval * pyval))
           (httplib_params : option (pydict pyval)) : M retval :=
  rest_invoke url (u "POST") params files accept headers
              (default true do_async) resp None credentials httplib_params.



(** What the interpreter does with the [Thread] objects: one that was
    started runs its target (whatever the target raises stays in the
    thread); one that was not started never runs. *)
Definition run_thread (t : thread) (w : world) : world :=
  if started t then snd (invoke (thread_args t) w) else w.

Definition background (w : world) : world :=
  fold_left (fun w t => run_thread t w) (threads w) w.
End Invoke.

(** ** A runtime to evaluate with

    One instance of [Runtime], used where a statement below is evaluated on
    a concrete call.  It is not part of the module: it stands for urllib,
    json and mimetypes on the plain inputs used here (URLs of the shape
    [scheme://host/path;params?query#fragment], ASCII JSON documents without
    fractions, a handful of file extensions), and for a server given as a
    function. *)

Module Ref.

(** [s.partition(c)]: text before and after the first [c]. *)
Fixpoint partition (c : N) (s : ustr) : option (ustr * ustr) :=
  match s with
  | [] => None
  | x :: s' =>
      if N.eqb x c then Some ([], s')
      else match partition c s' with
           | Some (a, b) => Some (x :: a, b)
           | None => None
           end
  end.

(** Text up to the first of [/], [?], [#], and the rest from there on. *)
Fixpoint span_netloc (s : ustr) : ustr * ustr :=
  match s with
  | [] => ([], [])
  | x :: s' =>
      if str_in x (u "/?#") then ([], s)
      else let (a, b) := span_netloc s' in (x :: a, b)
  end.

Definition is_alpha (c : N) : bool :=
  (N.leb 65 c && N.leb c 90) || (N.leb 97 c && N.leb c 122).

Definition scheme_char (c : N) : bool :=
  is_alpha c || (N.leb 48 c && N.leb c 57) || str_in c (u "+-.").

Definition lower (c : N) : N :=
  if N.leb 65 c && N.leb c 90 then c + 32 else c.

Definition urlparse (url : ustr)
  : result (ustr * ustr * ustr * ustr * ustr * ustr) :=
  let '(scheme, rest) :=
    match partition 58 url with
    | Some (c :: a, b) =>
        if is_alpha c && forallb scheme_char a then (map lower (c :: a), b)
        else ([], url)
    | _ => ([], url)
    end in
  let '(netloc, rest) :=
    match rest with
    | 47 :: 47 :: r => span_netloc r
    | _ => ([], rest)
    end in
  let '(rest, fragment) :=
    match partition 35 rest with Some p => p | None => (rest, []) end in
  let '(rest, query) :=
    match partition 63 rest with Some p => p | None => (rest, []) end in
  let '(path, params) :=
    match partition 59 rest with Some p => p | None => (rest, []) end in
  Ok (scheme, netloc, path, params, query, fragment).

(** *** JSON *)

Definition json_escape (c : N) : ustr :=
  if N.eqb c 34 then [92; 34]
  else if N.eqb c 92 then [92; 92]
  else if N.eqb c 10 then u "\n"
  else if N.eqb c 13 then u "\r"
  else if N.eqb c 9 then u "\t"
  else if N.ltb c 32 || N.leb 127 c then
    u "\u" ++ [hex_digit (N.div c 4096); hex_digit (N.modulo (N.div c 256) 16);
               hex_digit (N.modulo (N.div c 16) 16); hex_digit (N.modulo c 16)]
  else [c].

Definition json_string (s : ustr) : ustr :=
  [34] ++ flat_map json_escape s ++ [34].

Definition dumps_key (k : pyval) : result ustr :=
  match k with
  | VStr s => Ok (json_string s)
  | VInt _ => Ok (json_string (py_str k))
  | VBool b => Ok (json_string (if b then u "true" else u "false"))
  | VNone => Ok (json_string (u "null"))
  | VBytes _ => Raise TypeError
  end.

Definition dumps_value (v : pyval) : result ustr :=
  match v with
  | VStr s => Ok (json_string s)
  | VInt _ => Ok (py_str v)
  | VBool b => Ok (if b then u "true" else u "false")
  | VNone => Ok (u "null")
  | VBytes _ => Raise TypeError
  end.

Definition json_dumps (d : pydict pyval) : result ustr :=
  l <- mapM (fun kv =>
               k <- dumps_key (fst kv) ;;
               v <- dumps_value (snd kv) ;;
               Ok (k ++ u ": " ++ v))
            (items d) ;;
  Ok (u "{" ++ join (u ", ") l ++ u "}").

Definition is_ws (c : N) : bool := str_in c [32; 9; 10; 13].

Fixpoint skip_ws (s : ustr) : ustr :=
  match s with
  | c :: s' => if is_ws c then skip_ws s' else s
  | [] => []
  end.

Definition is_digit (c : N) : bool := N.leb 48 c && N.leb c 57.

Fixpoint span_digits (s : ustr) (acc : N) : N * ustr :=
  match s with
  | c :: s' =>
      if is_digit c then span_digits s' (10 * acc + (c - 48)) else (acc, s)
  | [] => (acc, [])
  end.

Definition hex_value (c : N) : option N :=
  if is_digit c then Some (c - 48)
  else if N.leb 97 c && N.leb c 102 then Some (c - 87)
  else if N.leb 65 c && N.leb c 70 then Some (c - 55)
  else None.

(** The characters of a string literal after its opening quote. *)
Fixpoint parse_chars (s : ustr) (fuel : nat) : option (ustr * ustr) :=
  match fuel with
  | O => None
  | S fuel' =>
      match s with
      | 34 :: rest => Some ([], rest)
      | 92 :: 117 :: a :: b :: c :: d :: rest =>
          match hex_value a, hex_value b, hex_value c, hex_value d with
          | Some a, Some b, Some c, Some d =>
              match parse_chars rest fuel' with
              | Some (t, r) => Some ((4096 * a + 256 * b + 16 * c + d) :: t, r)
              | None => None
              end
          | _, _, _, _ => None
          end
      | 92 :: e :: rest =>
          let c := if N.eqb e 110 then Some 10
                   else if N.eqb e 114 then Some 13
                   else if N.eqb e 116 then Some 9
                   else if N.eqb e 98 then Some 8
                   else if N.eqb e 102 then Some 12
                   else if str_in e [34; 92; 47] then Some e
                   else None in
          match c, parse_chars rest fuel' with
          | Some c, Some (t, r) => Some (c :: t, r)
          | _, _ => None
          end
      | c :: rest =>
          if N.ltb c 32 then None
          else match parse_chars rest fuel' with
               | Some (t, r) => Some (c :: t, r)
               | None => None
               end
      | [] => None
      end
  end.

Fixpoint parse_value (fuel : nat) (s : ustr) : option (json * ustr) :=
  match fuel with
  | O => None
  | S fuel' =>
      let parse_elems :=
        fix parse_elems (n : nat) (s : ustr) : option (list json * ustr) :=
          match n with
          | O => None
          | S n' =>
              match parse_value fuel' s with
              | Some (v, r) =>
                  match skip_ws r with
                  | 44 :: r' =>
                      match parse_elems n' r' with
                      | Some (vs, r'') => Some (v :: vs, r'')
                      | None => None
                      end
                  | 93 :: r' => Some ([v], r')
                  | _ => None
                  end
              | None => None
              end
          end in
      let parse_members :=
        fix parse_members (n : nat) (s : ustr)
          : option (list (ustr * json) * ustr) :=
          match n with
          | O => None
          | S n' =>
              match skip_ws s with
              | 34 :: r =>
                  match parse_chars r (List.length r) with
                  | Some (k, r1) =>
                      match skip_ws r1 with
                      | 58 :: r2 =>
                          match parse_value fuel' r2 with
                          | Some (v, r3) =>
                              match skip_ws r3 with
                              | 44 :: r4 =>
                                  match parse_members n' r4 with
                                  | Some (ms, r5) => Some ((k, v) :: ms, r5)
                                  | None => None
                                  end
                              | 125 :: r4 => Some ([(k, v)], r4)
                              | _ => None
                              end
                          | None => None
                          end
                      | _ => None
                      end
                  | None => None
                  end
              | _ => None
              end
          end in
      match skip_ws s with
      | 110 :: 117 :: 108 :: 108 :: r => Some (JNull, r)
      | 116 :: 114 :: 117 :: 101 :: r => Some (JBool true, r)
      | 102 :: 97 :: 108 :: 115 :: 101 :: r => Some (JBool false, r)
      | 34 :: r =>
          match parse_chars r (List.length r) with
          | Some (t, r') => Some (JStr t, r')
          | None => None
          end
      | 91 :: r =>
          match skip_ws r with
          | 93 :: r' => Some (JList [], r')
          | _ =>
              match parse_elems (S (List.length r)) r with
              | Some (vs, r') => Some (JList vs, r')
              | None => None
              end
          end
      | 123 :: r =>
          match skip_ws r with
          | 125 :: r' => Some (JObj [], r')
          | _ =>
              match parse_members (S (List.length r)) r with
              | Some (ms, r') => Some (JObj ms, r')
              | None => None
              end
          end
      | 45 :: c :: r =>
          if is_digit c then
            let (n, r') := span_digits (c :: r) 0 in
            match r' with
            | 46 :: _ | 101 :: _ | 69 :: _ => None
            | _ => Some (JInt (- Z.of_N n), r')
            end
          else None
      | c :: r =>
          if is_digit c then
            let (n, r') := span_digits (c :: r) 0 in
            match r' with
            | 46 :: _ | 101 :: _ | 69 :: _ => None
            | _ => Some (JInt (Z.of_N n), r')
            end
          else None
      | [] => None
      end
  end.

Definition parse_document (s : ustr) : result json :=
  match parse_value (S (List.length s)) s with
  | Some (v, r) =>
      match skip_ws r with
      | [] => Ok v
      | _ :: _ => Raise JSONDecodeError
      end
  | None => Raise JSONDecodeError
  end.

Definition json_loads (v : pyval) : result json :=
  match v with
  | VStr s => parse_document s
  | VBytes b => if is_ascii b then parse_document b else Raise JSONDecodeError
  | _ => Raise TypeError
  end.

(** *** MIME types *)

Fixpoint extension (s acc : ustr) (seen : bool) : option ustr :=
  match s with
  | [] => if seen then Some acc else None
  | c :: s' =>
      if N.eqb c 46 then extension s' [] true
      else if N.eqb c 47 then extension s' [] false
      else extension s' (acc ++ [lower c]) seen
  end.

Definition types_map : list (ustr * ustr) :=
  [(u "jpg", u "image/jpeg"); (u "jpeg", u "image/jpeg");
   (u "png", u "image/png"); (u "gif", u "image/gif");
   (u "txt", u "text/plain"); (u "html", u "text/html");
   (u "json", u "application/json"); (u "pdf", u "application/pdf")].

Definition guess_type (filename : pyval) : result (option ustr) :=
  match filename with
  | VStr s =>
      Ok match extension s [] false with
         | Some e => resp_lookup types_map e
         | None => None
         end
  | _ => Raise TypeError
  end.

Definition runtime (server : request -> result (response * bytes))
  : Runtime :=
  Build_Runtime urlparse json_dumps json_loads guess_type server.

(** A server that answers every request the same way. *)
Definition answers (ct : ustr) (body : bytes)
  : request -> result (response * bytes) :=
  fun _ => Ok ({| status := 200;
                  resp_headers := [(u "content-type", ct)] |}, body).

(** The interpreter at start: nothing sent, no thread. *)
Definition start : world :=
  {| debuglevel := VInt 0; sent := []; threads := [] |}.

End Ref.

(** ** Notions used in the statements *)

(** [str(v)] unless [v] is a [str] already *)
Definition stringify (v : pyval) : pyval :=
  if isinstance_str v then v else VStr (py_str v).

(** An ASCII-only [str]. *)
Definition ascii_str (v : pyval) : bool :=
  match v with VStr s => is_ascii s | _ => false end.

(** What [fix_params] makes of a value: text that is ASCII stays, other text
    becomes its UTF-8 bytes. *)
Definition fix_value (v : pyval) : result pyval :=
  match stringify v with
  | VStr t => if is_ascii t then Ok (VStr t)
              else b <- encode_utf8 t ;; Ok (VBytes b)
  | _ => Raise AttributeError
  end.

Definition all_keys {V} (p : pyval -> bool) (d : pydict V) : bool :=
  forallb (fun kv => p (fst kv)) (items d).

Definition all_values {V} (p : V -> bool) (d : pydict V) : bool :=
  forallb (fun kv => p (snd kv)) (items d).

(** The same entry table with every value replaced. *)
Definition dict_map {V} (f : pyval -> V -> V) (d : pydict V) : pydict V :=
  map (option_map (fun kv => (fst kv, f (fst kv) (snd kv)))) d.

Fixpoint dict_mapM {V} (f : V -> result V) (d : pydict V)
  : result (pydict V) :=
  match d with
  | [] => Ok []
  | None :: d' => r <- dict_mapM f d' ;; Ok (None :: r)
  | Some (k, v) :: d' =>
      v' <- f v ;; r <- dict_mapM f d' ;; Ok (Some (k, v') :: r)
  end.

(** The value [add_accepts] gives the [Accept] header. *)
Definition accept_value (accept : option (list ustr)) : ustr :=
  match default [] accept with
  | [] => u "*/*"
  | a => join (u ",") a
  end.

(** The path of a GET request once [query] has been put into it. *)
Definition with_query (path query : ustr) : ustr :=
  if negb (str_in 63 path) then path ++ u "?" ++ query
  else if endswith path (u "?") then path ++ query
  else path ++ u "&" ++ query.

(** *** Multipart bodies, as the format describes them

    A part opens with the boundary line and ends with the line break after
    its content; the body is the parts one after the other and then the
    closing marker. *)

Definition field_part (key value : pyval) : ustr :=
  u "--" ++ BOUNDARY ++ CRLF
  ++ u "Content-Disposition: form-data; name=" ++ QUOTE ++ py_str key ++ QUOTE
  ++ CRLF ++ CRLF
  ++ py_str value ++ CRLF.

Definition file_part (key filename value : pyval) (mime : ustr) : ustr :=
  u "--" ++ BOUNDARY ++ CRLF
  ++ u "Content-Disposition: form-data; name=" ++ QUOTE ++ py_str key ++ QUOTE
  ++ u "; filename=" ++ QUOTE ++ py_str filename ++ QUOTE ++ CRLF
  ++ u "Content-Type: " ++ mime ++ CRLF ++ CRLF
  ++ py_str value ++ CRLF.

Definition closing_marker : ustr := u "--" ++ BOUNDARY ++ u "--" ++ CRLF.

(** The MIME type of a file name: what the table says, and
    [application/octet-stream] when it says nothing. *)
Definition mime_or_default (t : option ustr) : ustr :=
  match t with
  | Some ((_ :: _) as s) => s
  | _ => u "application/octet-stream"
  end.

(** A header entry that needs no change beyond [str] of its value. *)
Definition clean_header (k v : pyval) : bool :=
  ascii_str k && ascii_str (stringify v).

(** The body the format asks for: one part per field, one part per file
    with the MIME type the table gives for its name, the closing marker. *)
Definition multipart_body (fields : list (pyval * pyval))
           (files : list (pyval * pyval * pyval))
           (types : list (option ustr)) : ustr :=
  flat_map (fun kv => field_part (fst kv) (snd kv)) fields
  ++ flat_map (fun ft =>
                 let '(key, filename, value, t) := ft in
                 file_part key filename value (mime_or_default t))
              (combine files types)
  ++ closing_marker.

(** A body delimited by braces or by square brackets. *)
Definition bracketed (content : bytes) : bool :=
  (startswith content (u "{") && endswith content (u "}"))
  || (startswith content (u "[") && endswith content (u "]")).

(** The request [non_multipart] builds. *)
Definition non_multipart_request (params host method path : ustr)
           (headers : pydict pyval) (scheme : ustr)
           (credentials : option (pyval * pyval)) (config : pydict pyval)
  : request :=
  let get := list_eqb method (u "GET") in
  {| req_url :=
       scheme ++ u "://" ++ host
       ++ (if get then
             match params with
             | [] => path
             | _ :: _ => with_query path params
             end
           else path);
     req_method := method;
     req_body := if get then [] else params;
     req_headers :=
       setitem headers (VStr (u "Content-Length"))
               (VStr (if get then u "0" else str_of_nat (List.length params)));
     req_credentials := credentials;
     req_config := config |}.

(** The request [post_multipart] builds. *)
Definition post_multipart_request (host selector method content_type body : ustr)
           (headers : pydict pyval) (scheme : ustr)
           (credentials : option (pyval * pyval)) (config : pydict pyval)
  : request :=
  {| req_url := scheme ++ u "://" ++ host ++ selector;
     req_method := method;
     req_body := body;
     req_headers :=
       setitem (setitem headers (VStr (u "Content-Length"))
                        (VStr (str_of_nat (List.length body))))
               (VStr (u "Content-Type")) (VStr content_type);
     req_credentials := credentials;
     req_config := config |}.

Section Prepare.
Context `{RT : Runtime}.

(** Everything [_rest_invoke] works out before it reaches a dispatcher:
    method, encoded parameters, host, path, normalised headers, scheme. *)
Definition prepare (url method : ustr) (params : option (pydict pyval))
           (accept : option (list ustr)) (headers : option (pydict pyval))
           (httpcallback : option HTTPCallback)
  : result (ustr * ustr * ustr * ustr * pydict pyval * ustr) :=
  '(method, url, params, headers) <-
    match httpcallback with
    | Some cb => apply_callback cb (or_empty params) (or_empty headers)
    | None => Ok (method, url, or_empty params, or_empty headers)
    end ;;
  '(hs, s) <-
    encode_params method params
      (add_accepts (Some (default [] accept)) (Some headers)) ;;
  host <- extract_host url ;;
  path <- extract_path url ;;
  h <- fix_headers (Some hs) ;;
  scheme <- extract_scheme url ;;
  Ok (method, s, host, path, h, scheme).
End Prepare.




(** What [httplib2.Http] is set up with: [httplib_params] without its
    [debuglevel]. *)
Definition http_config (httplib_params : pydict pyval) : pydict pyval :=
  if contains httplib_params (VStr (u "debuglevel"))
  then remove httplib_params (VStr (u "debuglevel"))
  else httplib_params.

(** The value of [httplib2.debuglevel] while the request is under way. *)
Definition debug_during (httplib_params : pydict pyval) (w : world) : pyval :=
  match lookup httplib_params (VStr (u "debuglevel")) with
  | Some v => v
  | None => debuglevel w
  end.

(** What the second loop of [fix_files] makes of an entry: a non-ASCII
    file name becomes its UTF-8 bytes. *)
Definition fix_upload (f : upload) : result upload :=
  match filename f with
  | VStr s =>
      if is_ascii s then Ok f
      else b <- encode_utf8 s ;;
           Ok {| file := file f; filename := VBytes b |}
  | _ => Raise AttributeError
  end.



(** * Properties *)

(** ** Text and keys *)

Lemma list_eqb_refl (a : list N) : list_eqb a a = true.
Proof.
  induction a as [|x a IH]; simpl; [reflexivity|].
  now rewrite N.eqb_refl, IH.
Qed.

Lemma list_eqb_eq (a b : list N) : list_eqb a b = true <-> a = b.
Proof.
  split.
  - revert b; induction a as [|x a IH]; intros [|y b]; simpl; try easy.
    intros H. apply andb_true_iff in H as [H1 H2].
    apply N.eqb_eq in H1. apply IH in H2. now subst.
  - intros ->. apply list_eqb_refl.
Qed.

Lemma list_eqb_sym (a b : list N) : list_eqb a b = list_eqb b a.
Proof.
  destruct (list_eqb a b) eqn:E.
  - apply list_eqb_eq in E; subst. now rewrite list_eqb_refl.
  - destruct (list_eqb b a) eqn:E'; [|reflexivity].
    apply list_eqb_eq in E'; subst. now rewrite list_eqb_refl in E.
Qed.

Lemma key_eqb_refl (k : pyval) : key_eqb k k = true.
Proof.
  destruct k as [|b|z|s|s]; simpl; auto using list_eqb_refl, Z.eqb_refl.
Qed.

Lemma key_eqb_sym (a b : pyval) : key_eqb a b = key_eqb b a.
Proof.
  destruct a, b; simpl; auto using list_eqb_sym, Z.eqb_sym.
Qed.

Lemma startswith_app (p s : list N) : startswith (p ++ s) p = true.
Proof.
  induction p as [|x p IH]; simpl; [now destruct s|].
  now rewrite N.eqb_refl, IH.
Qed.

(** ** Dictionaries *)

Section DictFacts.
Variable V : Type.
Implicit Types (d pre post : pydict V) (k : pyval) (v : V).

Lemma dict_len_app d1 d2 :
  dict_len (d1 ++ d2) = (dict_len d1 + dict_len d2)%nat.
Proof.
  induction d1 as [|[e|] d1 IH]; simpl; auto.
Qed.

Lemma lookup_app d1 d2 k :
  lookup (d1 ++ d2) k =
  match lookup d1 k with Some v => Some v | None => lookup d2 k end.
Proof.
  induction d1 as [|[[k' v']|] d1 IH]; simpl; auto.
  destruct (key_eqb k' k); auto.
Qed.

Lemma contains_app d1 d2 k :
  contains (d1 ++ d2) k = contains d1 k || contains d2 k.
Proof.
  unfold contains. rewrite lookup_app.
  destruct (lookup d1 k); reflexivity.
Qed.

Lemma contains_cons_some k' v d k :
  contains (Some (k', v) :: d) k = key_eqb k' k || contains d k.
Proof.
  unfold contains; simpl. destruct (key_eqb k' k); reflexivity.
Qed.

Lemma contains_cons_none d k : contains (None :: d) k = contains d k.
Proof. reflexivity. Qed.

(** In a well-formed table nothing before an entry has its key. *)
Lemma wf_app_fresh pre k v post :
  dict_wf (pre ++ Some (k, v) :: post) = true -> contains pre k = false.
Proof.
  induction pre as [|[[k0 v0]|] pre IH]; simpl; intros H; auto.
  apply andb_true_iff in H as [H1 H2].
  rewrite contains_cons_some, (IH H2), orb_false_r.
  apply negb_true_iff in H1.
  rewrite contains_app, contains_cons_some in H1.
  apply orb_false_iff in H1 as [_ H1].
  apply orb_false_iff in H1 as [H1 _].
  now rewrite key_eqb_sym.
Qed.

Lemma lookup_here pre k v post :
  contains pre k = false -> lookup (pre ++ Some (k, v) :: post) k = Some v.
Proof.
  unfold contains. intros H. rewrite lookup_app.
  destruct (lookup pre k); [discriminate|].
  simpl. now rewrite key_eqb_refl.
Qed.

Lemma replace_here pre k v post v' :
  contains pre k = false ->
  replace (pre ++ Some (k, v) :: post) k v' = pre ++ Some (k, v') :: post.
Proof.
  induction pre as [|[[k0 v0]|] pre IH]; simpl; intros H.
  - now rewrite key_eqb_refl.
  - rewrite contains_cons_some in H. apply orb_false_iff in H as [H1 H2].
    now rewrite H1, IH.
  - now rewrite IH.
Qed.

Lemma remove_here pre k v post :
  contains pre k = false ->
  remove (pre ++ Some (k, v) :: post) k = pre ++ None :: post.
Proof.
  induction pre as [|[[k0 v0]|] pre IH]; simpl; intros H.
  - now rewrite key_eqb_refl.
  - rewrite contains_cons_some in H. apply orb_false_iff in H as [H1 H2].
    now rewrite H1, IH.
  - now rewrite IH.
Qed.

Lemma getitem_here pre k v post :
  dict_wf (pre ++ Some (k, v) :: post) = true ->
  getitem (pre ++ Some (k, v) :: post) k = Ok v.
Proof.
  intros H. unfold getitem.
  rewrite lookup_here by (eapply wf_app_fresh; eassumption).
  reflexivity.
Qed.

Lemma contains_here pre k v post :
  contains (pre ++ Some (k, v) :: post) k = true.
Proof.
  rewrite contains_app, contains_cons_some, key_eqb_refl.
  now rewrite orb_true_r.
Qed.

Lemma setitem_here pre k v post v' :
  dict_wf (pre ++ Some (k, v) :: post) = true ->
  setitem (pre ++ Some (k, v) :: post) k v' = pre ++ Some (k, v') :: post.
Proof.
  intros H. unfold setitem. rewrite contains_here.
  apply replace_here. eapply wf_app_fresh; eassumption.
Qed.

Lemma contains_replace d k v k0 :
  contains (replace d k v) k0 = contains d k0.
Proof.
  induction d as [|[[k' v']|] d IH]; simpl; auto.
  destruct (key_eqb k' k); rewrite !contains_cons_some; [reflexivity|].
  now rewrite IH.
Qed.

Lemma dict_len_replace d k v : dict_len (replace d k v) = dict_len d.
Proof.
  induction d as [|[[k' v']|] d IH]; simpl; auto.
  destruct (key_eqb k' k); simpl; auto.
Qed.

Lemma wf_replace d k v : dict_wf (replace d k v) = dict_wf d.
Proof.
  induction d as [|[[k' v']|] d IH]; simpl; auto.
  destruct (key_eqb k' k); simpl; [reflexivity|].
  now rewrite contains_replace, IH.
Qed.

Lemma contains_remove_le d k k0 :
  contains (remove d k) k0 = true -> contains d k0 = true.
Proof.
  induction d as [|[[k' v']|] d IH]; simpl; auto.
  destruct (key_eqb k' k).
  - rewrite contains_cons_none, contains_cons_some. intros ->.
    apply orb_true_r.
  - rewrite !contains_cons_some. intros H.
    apply orb_true_iff in H as [H|H]; [now rewrite H|].
    rewrite (IH H). apply orb_true_r.
Qed.

Lemma wf_remove d k : dict_wf d = true -> dict_wf (remove d k) = true.
Proof.
  induction d as [|[[k' v']|] d IH]; simpl; auto.
  intros H. apply andb_true_iff in H as [H1 H2].
  destruct (key_eqb k' k); simpl; [assumption|].
  rewrite (IH H2), andb_true_r.
  apply negb_true_iff. apply negb_true_iff in H1.
  destruct (contains (remove d k) k') eqn:E; [|reflexivity].
  apply contains_remove_le in E. congruence.
Qed.

Lemma wf_snoc d k v :
  dict_wf d = true -> contains d k = false ->
  dict_wf (d ++ [Some (k, v)]) = true.
Proof.
  induction d as [|[[k' v']|] d IH]; simpl; intros H C.
  - reflexivity.
  - apply andb_true_iff in H as [H1 H2].
    rewrite contains_cons_some in C. apply orb_false_iff in C as [C1 C2].
    rewrite (IH H2 C2), andb_true_r.
    apply negb_true_iff. apply negb_true_iff in H1.
    rewrite contains_app, H1, contains_cons_some. simpl.
    now rewrite key_eqb_sym, C1.
  - now apply IH.
Qed.

Lemma wf_setitem d k v : dict_wf d = true -> dict_wf (setitem d k v) = true.
Proof.
  intros H. unfold setitem. destruct (contains d k) eqn:C.
  - now rewrite wf_replace.
  - now apply wf_snoc.
Qed.

Lemma dict_len_remove d k :
  contains d k = true -> S (dict_len (remove d k)) = dict_len d.
Proof.
  induction d as [|[[k' v']|] d IH]; simpl.
  - discriminate.
  - rewrite contains_cons_some. destruct (key_eqb k' k); simpl; auto.
  - rewrite contains_cons_none. auto.
Qed.

Lemma lookup_remove_same d k :
  dict_wf d = true -> lookup (remove d k) k = None.
Proof.
  induction d as [|[[k' v']|] d IH]; simpl; auto.
  intros H. apply andb_true_iff in H as [H1 H2].
  destruct (key_eqb k' k) eqn:E; simpl.
  - apply negb_true_iff in H1. unfold contains in H1.
    destruct (lookup d k) eqn:L; [|reflexivity].
    exfalso.
    assert (X : forall d0, lookup d0 k <> None -> lookup d0 k' <> None).
    { clear - E. intros d0. induction d0 as [|[[k2 v2]|] d0 IH]; simpl; auto.
      destruct (key_eqb k2 k) eqn:E2.
      - intros _. destruct (key_eqb k2 k') eqn:E3; [discriminate|].
        exfalso. clear IH.
        destruct k2, k, k'; simpl in *; try discriminate;
          try (apply list_eqb_eq in E2; apply list_eqb_eq in E; subst;
               now rewrite list_eqb_refl in E3);
          try (apply Z.eqb_eq in E2; apply Z.eqb_eq in E;
               apply Z.eqb_neq in E3; congruence).
      - destruct (key_eqb k2 k'); [discriminate|]. apply IH. }
    specialize (X d). rewrite L in X.
    destruct (lookup d k'); [discriminate|]. now apply X.
  - rewrite E. now apply IH.
Qed.
End DictFacts.

(** ** The key loop

    Three facts about [for k in d.keys()]: a body that only rewrites the
    value of the key it is given runs over the whole table; a body that
    leaves the table with an entry more to come than the iterator expects
    makes the loop raise; hence a loop that returns has only rewritten
    values. *)

Section LoopFacts.
Variable V : Type.
Implicit Types (d pre post : pydict V) (k : pyval) (v : V).
Variable body : pyval -> pydict V -> result (pydict V).

Lemma for_keys_eq used pos len d :
  for_keys body used pos len d =
  if negb (Nat.eqb used (dict_len d)) then Raise RuntimeError
  else match next_entry d pos with
       | None => Ok d
       | Some (i, k) =>
           match len with
           | O => Raise RuntimeError
           | S len' => rbind (body k d) (for_keys body used (S i) len')
           end
       end.
Proof. destruct len; reflexivity. Qed.

Lemma for_keys_size used pos len d :
  used <> dict_len d -> for_keys body used pos len d = Raise RuntimeError.
Proof.
  intros H. rewrite for_keys_eq.
  apply Nat.eqb_neq in H. now rewrite H.
Qed.

Lemma next_entry_app pre post :
  next_entry (pre ++ post) (List.length pre) =
  match next_entry post O with
  | Some (i, k) => Some ((List.length pre + i)%nat, k)
  | None => None
  end.
Proof.
  induction pre as [|e pre IH]; simpl.
  - destruct (next_entry post O) as [[i k]|]; reflexivity.
  - rewrite IH. destruct (next_entry post O) as [[i k]|]; reflexivity.
Qed.

Lemma next_entry_none post : next_entry post O = None -> dict_len post = O.
Proof.
  induction post as [|[[k v]|] post IH]; simpl; auto; try discriminate.
  destruct (next_entry post O) as [[i k]|]; [discriminate|auto].
Qed.

Lemma next_entry_some post i k :
  next_entry post O = Some (i, k) ->
  exists holes v post',
    post = holes ++ Some (k, v) :: post'
    /\ List.length holes = i /\ dict_len holes = O.
Proof.
  revert i. induction post as [|[[k0 v0]|] post IH]; simpl; intros i H.
  - discriminate.
  - injection H as <- <-. now exists [], v0, post.
  - destruct (next_entry post O) as [[j k']|] eqn:E; [|discriminate].
    injection H as <- <-.
    destruct (IH _ eq_refl) as (holes & v & post' & -> & <- & L).
    now exists (None :: holes), v, post'.
Qed.

Lemma dict_len_holes (holes : pydict V) :
  dict_len holes = O -> forall f, dict_map f holes = holes.
Proof.
  induction holes as [|[e|] holes IH]; simpl; intros H f;
    [reflexivity|discriminate|].
  now rewrite IH.
Qed.

Lemma dict_mapM_holes (holes post : pydict V) (g : V -> result V) :
  dict_len holes = O ->
  dict_mapM g (holes ++ post) = (r <- dict_mapM g post ;; Ok (holes ++ r)).
Proof.
  induction holes as [|[[k v]|] holes IH]; simpl; intros H.
  - now destruct (dict_mapM g post).
  - discriminate.
  - rewrite (IH H). now destruct (dict_mapM g post).
Qed.

Lemma wf_value pre k v post v' :
  dict_wf (pre ++ Some (k, v) :: post) = true ->
  dict_wf (pre ++ Some (k, v') :: post) = true.
Proof.
  intros H. rewrite <- (setitem_here _ _ _ _ v' H). now apply wf_setitem.
Qed.

(** *** A body that rewrites the value of its key *)

Section ValueBody.
Variable P : pyval -> V -> bool.
Variable g : V -> result V.
Hypothesis body_value :
  forall pre k v post,
    P k v = true ->
    dict_wf (pre ++ Some (k, v) :: post) = true ->
    body k (pre ++ Some (k, v) :: post) =
    (v' <- g v ;; Ok (pre ++ Some (k, v') :: post)).

Lemma for_keys_values len pre post :
  dict_wf (pre ++ post) = true ->
  forallb (fun kv => P (fst kv) (snd kv)) (items post) = true ->
  dict_len post = len ->
  for_keys body (dict_len (pre ++ post)) (List.length pre) len (pre ++ post)
  = (r <- dict_mapM g post ;; Ok (pre ++ r)).
Proof.
  revert pre post. induction len as [|len IH]; intros pre post W A L.
  - rewrite for_keys_eq, Nat.eqb_refl, next_entry_app. simpl.
    destruct (next_entry post O) as [[i k]|] eqn:E.
    + destruct (next_entry_some _ E) as (holes & v & post' & -> & _ & _).
      rewrite dict_len_app in L. simpl in L. lia.
    + rewrite <- (app_nil_r post) at 2.
      rewrite dict_mapM_holes by assumption. simpl.
      now rewrite app_nil_r.
  - rewrite for_keys_eq, Nat.eqb_refl, next_entry_app. simpl.
    destruct (next_entry post O) as [[i k]|] eqn:E.
    2:{ apply next_entry_none in E. lia. }
    destruct (next_entry_some _ E) as (holes & v & post' & -> & <- & H0).
    assert (Pk : P k v = true /\
                 forallb (fun kv => P (fst kv) (snd kv)) (items post') = true).
    { clear - A H0. induction holes as [|[e|] holes IHh]; simpl in *.
      - now apply andb_true_iff in A.
      - discriminate.
      - auto. }
    destruct Pk as [Pk A'].
    rewrite dict_mapM_holes by assumption. simpl.
    rewrite app_assoc in W |- *.
    rewrite body_value by assumption.
    destruct (g v) as [v'|e]; simpl; [|reflexivity].
    rewrite dict_len_app in L. simpl in L.
    assert (X : forall x,
               (pre ++ holes) ++ Some (k, x) :: post'
               = ((pre ++ holes) ++ [Some (k, x)]) ++ post')
      by (intros x;
          now rewrite <- (app_assoc (pre ++ holes) [Some (k, x)] post')).
    assert (Len : dict_len ((pre ++ holes) ++ Some (k, v) :: post')
                  = dict_len (((pre ++ holes) ++ [Some (k, v')]) ++ post')).
    { rewrite ?dict_len_app. simpl. rewrite ?dict_len_app. simpl. lia. }
    rewrite Len, (X v').
    replace (S (List.length pre + List.length holes))
      with (List.length ((pre ++ holes) ++ [Some (k, v')]))
      by (rewrite !length_app; simpl; lia).
    rewrite IH.
    + destruct (dict_mapM g post'); simpl; [|reflexivity].
      now rewrite <- !app_assoc.
    + rewrite <- X. eapply wf_value; eassumption.
    + assumption.
    + lia.
Qed.
End ValueBody.

(** *** A body that may also move its key *)

Section AnyBody.
Variable f : pyval -> V -> V.
Variable Q : pyval -> V -> bool.
Hypothesis body_spec :
  forall pre k v post d1,
    dict_wf (pre ++ Some (k, v) :: post) = true ->
    body k (pre ++ Some (k, v) :: post) = Ok d1 ->
    (d1 = pre ++ Some (k, f k v) :: post /\ Q k v = true)
    \/ dict_len d1 <> dict_len (pre ++ Some (k, v) :: post)
    \/ (dict_wf d1 = true
        /\ dict_len d1 = dict_len (pre ++ Some (k, v) :: post)
        /\ exists post1,
            d1 = (pre ++ [None]) ++ post1
            /\ (dict_len post < dict_len post1)%nat).

Lemma for_keys_dirty len pre post :
  dict_wf (pre ++ post) = true ->
  (len < dict_len post)%nat ->
  exists e,
    for_keys body (dict_len (pre ++ post)) (List.length pre) len
             (pre ++ post) = Raise e.
Proof.
  revert pre post. induction len as [|len IH]; intros pre post W L.
  - rewrite for_keys_eq, Nat.eqb_refl, next_entry_app. simpl.
    destruct (next_entry post O) as [[i k]|] eqn:E; [now eexists|].
    apply next_entry_none in E. lia.
  - rewrite for_keys_eq, Nat.eqb_refl, next_entry_app. simpl.
    destruct (next_entry post O) as [[i k]|] eqn:E.
    2:{ apply next_entry_none in E. lia. }
    destruct (next_entry_some _ E) as (holes & v & post' & -> & <- & H0).
    rewrite dict_len_app in L. simpl in L.
    rewrite app_assoc in W |- *.
    destruct (body k ((pre ++ holes) ++ Some (k, v) :: post')) as [d1|e]
      eqn:B; simpl; [|now eexists].
    destruct (body_spec _ _ _ W B)
      as [[-> Qk]|[N|(W1 & L1 & post1 & -> & G)]].
    + assert (X : forall x,
                 (pre ++ holes) ++ Some (k, x) :: post'
                 = ((pre ++ holes) ++ [Some (k, x)]) ++ post')
        by (intros x;
          now rewrite <- (app_assoc (pre ++ holes) [Some (k, x)] post')).
      assert (Len : dict_len ((pre ++ holes) ++ Some (k, v) :: post')
                    = dict_len (((pre ++ holes) ++ [Some (k, f k v)])
                                  ++ post')).
      { rewrite ?dict_len_app. simpl. rewrite ?dict_len_app. simpl. lia. }
      rewrite Len, (X (f k v)).
      replace (S (List.length pre + List.length holes))
        with (List.length ((pre ++ holes) ++ [Some (k, f k v)]))
        by (rewrite !length_app; simpl; lia).
      apply IH; [|lia].
      rewrite <- X. eapply wf_value; eassumption.
    + exists RuntimeError. apply for_keys_size. congruence.
    + rewrite <- L1.
      replace (S (List.length pre + List.length holes))
        with (List.length ((pre ++ holes) ++ [@None (pyval * V)]))
        by (rewrite !length_app; simpl; lia).
      apply IH; [assumption|lia].
Qed.

Lemma for_keys_returns len pre post d' :
  dict_wf (pre ++ post) = true ->
  dict_len post = len ->
  for_keys body (dict_len (pre ++ post)) (List.length pre) len (pre ++ post)
  = Ok d' ->
  d' = pre ++ dict_map f post
  /\ forallb (fun kv => Q (fst kv) (snd kv)) (items post) = true.
Proof.
  revert pre post. induction len as [|len IH]; intros pre post W L.
  - rewrite for_keys_eq, Nat.eqb_refl, next_entry_app. simpl.
    destruct (next_entry post O) as [[i k]|] eqn:E; [discriminate|].
    intros [= <-]. apply next_entry_none in E.
    rewrite dict_len_holes by assumption. split; [reflexivity|].
    clear - E. induction post as [|[e|] post IHp]; simpl in *;
      auto; discriminate.
  - rewrite for_keys_eq, Nat.eqb_refl, next_entry_app. simpl.
    destruct (next_entry post O) as [[i k]|] eqn:E.
    2:{ apply next_entry_none in E. lia. }
    destruct (next_entry_some _ E) as (holes & v & post' & -> & <- & H0).
    rewrite dict_len_app in L. simpl in L.
    rewrite app_assoc in W |- *.
    destruct (body k ((pre ++ holes) ++ Some (k, v) :: post')) as [d1|e]
      eqn:B; simpl; [|discriminate].
    destruct (body_spec _ _ _ W B)
      as [[-> Qk]|[N|(W1 & L1 & post1 & -> & G)]].
    + assert (X : forall x,
                 (pre ++ holes) ++ Some (k, x) :: post'
                 = ((pre ++ holes) ++ [Some (k, x)]) ++ post')
        by (intros x;
          now rewrite <- (app_assoc (pre ++ holes) [Some (k, x)] post')).
      assert (Len : dict_len ((pre ++ holes) ++ Some (k, v) :: post')
                    = dict_len (((pre ++ holes) ++ [Some (k, f k v)])
                                  ++ post')).
      { rewrite ?dict_len_app. simpl. rewrite ?dict_len_app. simpl. lia. }
      rewrite Len, (X (f k v)).
      replace (S (List.length pre + List.length holes))
        with (List.length ((pre ++ holes) ++ [Some (k, f k v)]))
        by (rewrite !length_app; simpl; lia).
      intros R. apply IH in R; [|rewrite <- X; eapply wf_value; eassumption|lia].
      destruct R as [-> A]. split.
      * unfold dict_map. rewrite map_app. simpl.
        fold (dict_map f holes). fold (dict_map f post').
        rewrite (dict_len_holes _ H0). now rewrite <- !app_assoc.
      * clear - A Qk H0. induction holes as [|[e|] holes IHh]; simpl in *.
        -- now rewrite Qk.
        -- discriminate.
        -- auto.
    + rewrite for_keys_size by congruence. discriminate.
    + rewrite <- L1.
      replace (S (List.length pre + List.length holes))
        with (List.length ((pre ++ holes) ++ [@None (pyval * V)]))
        by (rewrite !length_app; simpl; lia).
      destruct (@for_keys_dirty len ((pre ++ holes) ++ [None]) post1 W1)
        as [e R]; [lia|].
      rewrite R. discriminate.
Qed.
End AnyBody.

(** Moving an entry to another key, [d[new_k] = v'; del d[k]], leaves a
    table the iterator objects to. *)
Lemma rename_key pre k v post nk nv :
  dict_wf (pre ++ Some (k, v) :: post) = true ->
  exists d1,
    delitem (setitem (pre ++ Some (k, v) :: post) nk nv) k = Ok d1
    /\ (dict_len d1 <> dict_len (pre ++ Some (k, v) :: post)
        \/ (dict_wf d1 = true
            /\ dict_len d1 = dict_len (pre ++ Some (k, v) :: post)
            /\ exists post1,
                d1 = (pre ++ [None]) ++ post1
                /\ (dict_len post < dict_len post1)%nat)).
Proof.
  intros W. set (d := pre ++ Some (k, v) :: post) in *.
  assert (F : contains pre k = false) by (eapply wf_app_fresh; eassumption).
  unfold setitem. destruct (contains d nk) eqn:C.
  - unfold delitem. rewrite contains_replace.
    unfold d at 1. rewrite contains_here.
    eexists; split; [reflexivity|]. left.
    assert (X : contains (replace d nk nv) k = true).
    { rewrite contains_replace. apply contains_here. }
    apply dict_len_remove in X. rewrite dict_len_replace in X. lia.
  - unfold delitem. rewrite contains_app.
    unfold d at 1. rewrite contains_here. simpl.
    eexists; split; [reflexivity|]. right.
    assert (E : remove (d ++ [Some (nk, nv)]) k
                = (pre ++ [None]) ++ post ++ [Some (nk, nv)]).
    { unfold d. rewrite <- app_assoc. simpl.
      rewrite remove_here by assumption. now rewrite <- app_assoc. }
    split; [|split].
    + apply wf_remove. now apply wf_snoc.
    + rewrite E. unfold d. rewrite ?dict_len_app. simpl.
      rewrite ?dict_len_app. simpl. lia.
    + exists (post ++ [Some (nk, nv)]). split; [exact E|].
      rewrite dict_len_app. simpl. lia.
Qed.
End LoopFacts.

(** ** The loop bodies of the normalisers *)

Lemma stringify_str (v : pyval) : exists t, stringify v = VStr t.
Proof. destruct v; unfold stringify; simpl; eauto. Qed.

Lemma fix_params_key_clean (k : pyval) (d : pydict pyval) :
  ascii_str k = true -> fix_params_key k d = Ok d.
Proof.
  destruct k; simpl; try discriminate. intros H.
  unfold fix_params_key, encode_ascii; simpl.
  unfold encode_ascii. now rewrite H.
Qed.


Lemma fix_params_value_eq pre k v post :
  dict_wf (pre ++ Some (k, v) :: post) = true ->
  fix_params_value k (pre ++ Some (k, v) :: post) =
  (v' <- fix_value v ;; Ok (pre ++ Some (k, v') :: post)).
Proof.
  intros W. unfold fix_params_value, fix_value.
  rewrite getitem_here by assumption. simpl.
  assert (X : forall t,
             dict_wf (pre ++ Some (k, VStr t) :: post) = true ->
             (v0 <- getitem (pre ++ Some (k, VStr t) :: post) k ;;
              match method_encode_ascii v0 with
              | Ok _ => Ok (pre ++ Some (k, VStr t) :: post)
              | Raise UnicodeEncodeError =>
                  v1 <- getitem (pre ++ Some (k, VStr t) :: post) k ;;
                  new_v <- method_encode_utf8 v1 ;;
                  Ok (setitem (pre ++ Some (k, VStr t) :: post) k new_v)
              | Raise e => Raise e
              end) =
             (v' <- (if is_ascii t then Ok (VStr t)
                     else b <- encode_utf8 t ;; Ok (VBytes b)) ;;
              Ok (pre ++ Some (k, v') :: post))).
  { intros t Wt. rewrite getitem_here by assumption. simpl.
    unfold encode_ascii. destruct (is_ascii t); simpl; [reflexivity|].
    destruct (encode_utf8 t) as [b|e]; simpl; [|reflexivity].
    now rewrite setitem_here. }
  destruct (isinstance_str v) eqn:S.
  - destruct v; try discriminate. simpl. now apply X.
  - unfold stringify. rewrite S. simpl.
    rewrite setitem_here by assumption.
    apply X. eapply wf_value; eassumption.
Qed.

Lemma fix_headers_step_clean pre k v post :
  clean_header k v = true ->
  dict_wf (pre ++ Some (k, v) :: post) = true ->
  fix_headers_step k (pre ++ Some (k, v) :: post) =
  (v' <- Ok (stringify v) ;; Ok (pre ++ Some (k, v') :: post)).
Proof.
  unfold clean_header. intros C W. apply andb_true_iff in C as [Ck Cv].
  destruct k as [| | |s|]; try discriminate. simpl in Ck.
  unfold fix_headers_step. simpl.
  rewrite getitem_here by assumption. simpl.
  destruct (stringify_str v) as [t E]. rewrite E in Cv |- *. simpl in Cv.
  assert (X : (if negb (isinstance_str v)
               then setitem (pre ++ Some (VStr s, v) :: post) (VStr s)
                            (VStr (py_str v))
               else pre ++ Some (VStr s, v) :: post)
              = pre ++ Some (VStr s, VStr t) :: post).
  { unfold stringify in E. destruct (isinstance_str v); simpl.
    - now subst.
    - rewrite setitem_here by assumption. congruence. }
  rewrite X.
  rewrite getitem_here by (eapply wf_value; eassumption). simpl.
  unfold encode_ascii. now rewrite Cv, Ck.
Qed.

Lemma fix_headers_step_spec pre k v post d1 :
  dict_wf (pre ++ Some (k, v) :: post) = true ->
  fix_headers_step k (pre ++ Some (k, v) :: post) = Ok d1 ->
  (d1 = pre ++ Some (k, (fun _ x => stringify x) k v) :: post
   /\ clean_header k v = true)
  \/ dict_len d1 <> dict_len (pre ++ Some (k, v) :: post)
  \/ (dict_wf d1 = true
      /\ dict_len d1 = dict_len (pre ++ Some (k, v) :: post)
      /\ exists post1,
          d1 = (pre ++ [None]) ++ post1
          /\ (dict_len post < dict_len post1)%nat).
Proof.
  intros W. unfold fix_headers_step.
  destruct (isinstance_str k) eqn:S; simpl.
  - destruct k as [| | |s|]; try discriminate.
    rewrite getitem_here by assumption. simpl.
    destruct (stringify_str v) as [t E].
    assert (X : (if negb (isinstance_str v)
                 then setitem (pre ++ Some (VStr s, v) :: post) (VStr s)
                              (VStr (py_str v))
                 else pre ++ Some (VStr s, v) :: post)
                = pre ++ Some (VStr s, VStr t) :: post).
    { unfold stringify in E. destruct (isinstance_str v); simpl.
      - now subst.
      - rewrite setitem_here by assumption. congruence. }
    rewrite X.
    assert (Wt : dict_wf (pre ++ Some (VStr s, VStr t) :: post) = true)
      by (eapply wf_value; eassumption).
    rewrite getitem_here by assumption. simpl.
    unfold clean_header. rewrite E. simpl.
    unfold encode_ascii.
    destruct (is_ascii t) eqn:At; simpl;
      [destruct (is_ascii s) eqn:As; simpl|].
    + intros [= <-]. now left.
    + destruct (rename_key _ _ _ _ (VBytes (encode_ascii_ignore s))
                           (VBytes (encode_ascii_ignore t)) Wt)
        as (d2 & -> & R).
      intros [= <-]. right.
      replace (dict_len (pre ++ Some (VStr s, v) :: post))
        with (dict_len (pre ++ Some (VStr s, VStr t) :: post))
        by (rewrite !dict_len_app; reflexivity).
      exact R.
    + destruct (rename_key _ _ _ _ (VBytes (encode_ascii_ignore s))
                           (VBytes (encode_ascii_ignore t)) Wt)
        as (d2 & -> & R).
      intros [= <-]. right.
      replace (dict_len (pre ++ Some (VStr s, v) :: post))
        with (dict_len (pre ++ Some (VStr s, VStr t) :: post))
        by (rewrite !dict_len_app; reflexivity).
      exact R.
  - rewrite getitem_here by assumption. simpl.
    unfold delitem.
    destruct (contains (setitem (pre ++ Some (k, v) :: post)
                                (VStr (py_str k)) v) k); simpl;
      [|discriminate].
    unfold getitem at 1.
    rewrite lookup_remove_same by (now apply wf_setitem).
    simpl. discriminate.
Qed.

(** ** What the normalisers compute *)

Lemma for_each_key_values {V} (body : pyval -> pydict V -> result (pydict V))
      (P : pyval -> V -> bool) (g : V -> result V) (d : pydict V) :
  (forall pre k v post,
      P k v = true ->
      dict_wf (pre ++ Some (k, v) :: post) = true ->
      body k (pre ++ Some (k, v) :: post) =
      (v' <- g v ;; Ok (pre ++ Some (k, v') :: post))) ->
  dict_wf d = true ->
  forallb (fun kv => P (fst kv) (snd kv)) (items d) = true ->
  for_each_key body d = dict_mapM g d.
Proof.
  intros B W A. unfold for_each_key.
  pose proof (@for_keys_values V body P g B (dict_len d) [] d W A eq_refl) as H.
  simpl in H. rewrite H. now destruct (dict_mapM g d).
Qed.

Lemma for_each_key_returns {V} (body : pyval -> pydict V -> result (pydict V))
      (f : pyval -> V -> V) (Q : pyval -> V -> bool) (d d' : pydict V) :
  (forall pre k v post d1,
      dict_wf (pre ++ Some (k, v) :: post) = true ->
      body k (pre ++ Some (k, v) :: post) = Ok d1 ->
      (d1 = pre ++ Some (k, f k v) :: post /\ Q k v = true)
      \/ dict_len d1 <> dict_len (pre ++ Some (k, v) :: post)
      \/ (dict_wf d1 = true
          /\ dict_len d1 = dict_len (pre ++ Some (k, v) :: post)
          /\ exists post1,
              d1 = (pre ++ [None]) ++ post1
              /\ (dict_len post < dict_len post1)%nat)) ->
  dict_wf d = true ->
  for_each_key body d = Ok d' ->
  d' = dict_map f d
  /\ forallb (fun kv => Q (fst kv) (snd kv)) (items d) = true.
Proof.
  intros B W R. unfold for_each_key in R.
  exact (@for_keys_returns V body f Q B (dict_len d) [] d d' W eq_refl R).
Qed.

Lemma dict_mapM_ok_id {V} (d : pydict V) : dict_mapM (fun v => Ok v) d = Ok d.
Proof.
  induction d as [|[[k v]|] d IH]; simpl; auto; now rewrite IH.
Qed.


Lemma dict_mapM_pure {V} (h : V -> V) (d : pydict V) :
  dict_mapM (fun v => Ok (h v)) d = Ok (dict_map (fun _ => h) d).
Proof.
  induction d as [|[[k v]|] d IH]; simpl; auto; now rewrite IH.
Qed.



Lemma fix_params_clean (d : pydict pyval) :
  dict_wf d = true ->
  all_keys ascii_str d = true ->
  fix_params (Some d) = dict_mapM fix_value d.
Proof.
  intros W A. unfold fix_params. simpl.
  rewrite (for_each_key_values fix_params_key (fun k _ => ascii_str k)
             (fun v => Ok v)); try assumption.
  - rewrite dict_mapM_ok_id. simpl.
    rewrite (for_each_key_values fix_params_value (fun _ _ => true) fix_value).
    + now destruct (dict_mapM fix_value d).
    + intros. now apply fix_params_value_eq.
    + assumption.
    + now apply forallb_forall.
  - intros. now rewrite fix_params_key_clean.
Qed.

Lemma fix_headers_returns (d d' : pydict pyval) :
  dict_wf d = true ->
  fix_headers (Some d) = Ok d' ->
  d' = dict_map (fun _ => stringify) d
  /\ forallb (fun kv => clean_header (fst kv) (snd kv)) (items d) = true.
Proof.
  intros W R. unfold fix_headers in R. simpl in R.
  exact (for_each_key_returns fix_headers_step (fun _ x => stringify x)
           clean_header d fix_headers_step_spec W R).
Qed.

Lemma fix_headers_clean (d : pydict pyval) :
  dict_wf d = true ->
  forallb (fun kv => clean_header (fst kv) (snd kv)) (items d) = true ->
  fix_headers (Some d) = Ok (dict_map (fun _ => stringify) d).
Proof.
  intros W A. unfold fix_headers. simpl.
  rewrite (for_each_key_values fix_headers_step clean_header
             (fun v => Ok (stringify v))); try assumption.
  - apply dict_mapM_pure.
  - intros. now apply fix_headers_step_clean.
Qed.

(** ** Multipart encoding *)

Lemma join_cons (sep x : ustr) (rest : list ustr) :
  rest <> [] -> join sep (x :: rest) = x ++ sep ++ join sep rest.
Proof. destruct rest; [congruence|reflexivity]. Qed.

Lemma join_lines4 (a b c d : ustr) (rest : list ustr) :
  rest <> [] ->
  join CRLF ([a; b; c; d] ++ rest)
  = a ++ CRLF ++ b ++ CRLF ++ c ++ CRLF ++ d ++ CRLF ++ join CRLF rest.
Proof.
  intros H. simpl app.
  rewrite !join_cons by (try discriminate; assumption).
  reflexivity.
Qed.

Lemma app_not_nil {A} (l1 l2 : list A) : l2 <> [] -> l1 ++ l2 <> [].
Proof. destruct l1; simpl; [auto|discriminate]. Qed.

Lemma join_lines5 (a b c d e : ustr) (rest : list ustr) :
  rest <> [] ->
  join CRLF ([a; b; c; d; e] ++ rest)
  = a ++ CRLF ++ b ++ CRLF ++ c ++ CRLF ++ d ++ CRLF ++ e ++ CRLF
    ++ join CRLF rest.
Proof.
  intros H. simpl app.
  rewrite !join_cons by (try discriminate; assumption).
  reflexivity.
Qed.

Lemma join_fields (fields : list (pyval * pyval)) (rest : list ustr) :
  rest <> [] ->
  join CRLF (encode_fields fields ++ rest)
  = flat_map (fun kv => field_part (fst kv) (snd kv)) fields
    ++ join CRLF rest.
Proof.
  intros H. induction fields as [|[key value] fields IH]; [reflexivity|].
  cbn [encode_fields flat_map fst snd].
  rewrite <- app_assoc.
  rewrite join_lines4 by now apply app_not_nil.
  rewrite IH. unfold field_part.
  repeat rewrite <- app_assoc. reflexivity.
Qed.

Section Multipart.
Context `{RT : Runtime}.

Lemma join_files (files : list (pyval * pyval * pyval))
      (types : list (option ustr)) (rest : list ustr) :
  map (fun f => guess_type (snd (fst f))) files = map Ok types ->
  rest <> [] ->
  exists L,
    encode_files files = Ok L
    /\ join CRLF (L ++ rest)
       = flat_map (fun ft =>
                     let '(key, filename, value, t) := ft in
                     file_part key filename value (mime_or_default t))
                  (combine files types)
         ++ join CRLF rest.
Proof.
  intros G H. revert types G.
  induction files as [|[[key filename] value] files IH]; intros types G.
  - exists []. now destruct types.
  - destruct types as [|t types]; [discriminate|].
    simpl in G. injection G as G1 G2.
    destruct (IH _ G2) as (L & E & J).
    cbn [encode_files]. unfold get_content_type. rewrite G1, E.
    eexists; split; [reflexivity|].
    cbn [combine flat_map].
    rewrite <- app_assoc.
    rewrite join_lines5 by now apply app_not_nil.
    rewrite J. unfold file_part.
    repeat rewrite <- app_assoc. reflexivity.
Qed.
End Multipart.

(** ** C9: the multipart encoder *)

(** C9.  For every sequence of plain fields and of file fields (the MIME
    table answering [types] for the file names), [encode_multipart_formdata]
    returns the content type [multipart/form-data; boundary=BOUNDARY] and a
    body made of one part per plain field (boundary line, a
    [Content-Disposition: form-data; name="<field>"] header, an empty line,
    the stringified value), one part per file field (name and filename
    attributes, a [Content-Type] taken from the table, or
    [application/octet-stream] when the table has nothing), and the closing
    boundary marker. *)
Theorem encode_multipart_formdata_body `{RT : Runtime}
        (fields : list (pyval * pyval)) (files : list (pyval * pyval * pyval))
        (types : list (option ustr)) :
  map (fun f => guess_type (snd (fst f))) files = map Ok types ->
  encode_multipart_formdata fields files
  = Ok (u "multipart/form-data; boundary=" ++ BOUNDARY,
        multipart_body fields files types)
  /\ mime_or_default None = u "application/octet-stream"
  /\ startswith closing_marker (u "--" ++ BOUNDARY ++ u "--") = true.
Proof.
  intros G. split; [|split; reflexivity].
  unfold encode_multipart_formdata, multipart_body.
  destruct (@join_files RT files types [u "--" ++ BOUNDARY ++ u "--"; []] G)
    as (L & E & J); [discriminate|].
  rewrite E. simpl rbind. rewrite map_id.
  do 2 f_equal.
  rewrite <- !app_assoc.
  rewrite join_fields by now apply app_not_nil.
  f_equal. exact J.
Qed.

Lemma encode_multipart_formdata_body_witness :
  encode_multipart_formdata
    (RT := Ref.runtime (Ref.answers (u "text/plain") []))
    [(VStr (u "value"), VInt 7)]
    [(VStr (u "image"), VStr (u "sample.jpg"), VStr (u "JFIF"));
     (VStr (u "blob"), VStr (u "data.bin"), VStr (u "xyz"))]
  = Ok (u "multipart/form-data; boundary=" ++ BOUNDARY,
        multipart_body
          [(VStr (u "value"), VInt 7)]
          [(VStr (u "image"), VStr (u "sample.jpg"), VStr (u "JFIF"));
           (VStr (u "blob"), VStr (u "data.bin"), VStr (u "xyz"))]
          [Some (u "image/jpeg"); None]).
Proof.
  apply (encode_multipart_formdata_body
           (RT := Ref.runtime (Ref.answers (u "text/plain") []))).
  reflexivity.
Defined.

(** ** C1: fire and forget *)

(** C1.  With [do_async] set, [rest_invoke] returns [None] and leaves one
    more [Thread] object behind, on which [start()] was never called: no
    request has reached the transport when the call returns, and none ever
    does, because a thread that was not started does not run.  The same for
    [POST] called without [do_async]. *)
Theorem rest_invoke_async_never_sends `{RT : Runtime}
        (url method : ustr) (params : option (pydict pyval))
        (files : option (pydict upload)) (accept : option (list ustr))
        (headers : option (pydict pyval)) (resp : bool)
        (httpcallback : option HTTPCallback)
        (credentials : option (pyval * pyval))
        (httplib_params : option (pydict pyval)) (w : world) :
  let t := {| thread_args :=
                {| a_url := url; a_method := method; a_params := params;
                   a_files := files; a_accept := accept;
                   a_headers := headers; a_resp := resp;
                   a_httpcallback := httpcallback;
                   a_credentials := credentials;
                   a_httplib_params := httplib_params |};
              started := false |} in
  rest_invoke url method params files accept headers true resp httpcallback
              credentials httplib_params w
  = (Ok RNone,
     {| debuglevel := debuglevel w; sent := sent w;
        threads := threads w ++ [t] |})
  /\ (forall w', run_thread t w' = w')
  /\ sent (background
             (snd (rest_invoke url method params files accept headers true
                               resp httpcallback credentials httplib_params
                               Ref.start))) = []
  /\ fst (POST url params files accept headers None resp credentials
               httplib_params w) = Ok RNone
  /\ sent (snd (POST url params files accept headers None resp credentials
                     httplib_params w)) = sent w.
Proof.
  repeat split.
Qed.

(** ** C5 and C7: normalisation *)




(** What that call evaluates to: the text became its UTF-8 bytes, the number
    its decimal text. *)
Example fix_params_example :
  fix_params (Some (dict_of [(VStr (u "q"), VStr (u "caf" ++ [233]));
                             (VStr (u "n"), VInt 42)]))
  = Ok [Some (VStr (u "q"), VBytes (u "caf" ++ [195; 169]));
        Some (VStr (u "n"), VStr (u "42"))].
Proof. reflexivity. Qed.

(** C7.  A header with non-ASCII text does not come back with the text
    dropped: the loop of [fix_headers] stores the entry under a new key
    while it iterates over the keys, and the iterator raises. *)
Theorem fix_headers_non_ascii_raises :
  fix_headers (Some (dict_of [(VStr (u "foo" ++ [8210]),
                               VStr (u "foo" ++ [8210]))]))
  = Raise RuntimeError
  /\ fix_headers (Some (dict_of [(VStr (u "X-Name"), VStr (u "caf" ++ [233]));
                                 (VStr (u "Accept"), VStr (u "*/*"))]))
     = Raise RuntimeError.
Proof. split; reflexivity. Qed.

(** Whatever [fix_headers] returns is ASCII-only text under ASCII-only
    names, and is the input with its values stringified: an entry that
    needed dropping makes the call raise. *)
Lemma fix_headers_returns_ascii (d d' : pydict pyval) :
  dict_wf d = true ->
  fix_headers (Some d) = Ok d' ->
  all_keys ascii_str d' = true
  /\ all_values ascii_str d' = true
  /\ d' = dict_map (fun _ => stringify) d.
Proof.
  intros W R. destruct (fix_headers_returns d W R) as [-> A].
  repeat split.
  - clear - A. unfold all_keys.
    induction d as [|[[k v]|] d IH]; simpl in *; auto.
    apply andb_true_iff in A as [A1 A2].
    unfold clean_header in A1. apply andb_true_iff in A1 as [A1 _].
    now rewrite A1, IH.
  - clear - A. unfold all_values.
    induction d as [|[[k v]|] d IH]; simpl in *; auto.
    apply andb_true_iff in A as [A1 A2].
    unfold clean_header in A1. apply andb_true_iff in A1 as [_ A1].
    now rewrite A1, IH.
Qed.

(** ** The dispatchers *)

Lemma take_debuglevel_spec (hp : pydict pyval) (w : world) :
  exists hp' v,
    take_debuglevel hp w
    = (Ok hp', {| debuglevel := v; sent := sent w; threads := threads w |}).
Proof.
  unfold take_debuglevel.
  destruct (contains hp (VStr (u "debuglevel"))) eqn:C.
  - unfold bind, lift, set_debuglevel, getitem, delitem.
    rewrite C. unfold contains in C.
    destruct (lookup hp (VStr (u "debuglevel"))); [|discriminate].
    simpl. now eexists _, _.
  - unfold ret. exists hp, (debuglevel w). now destruct w.
Qed.

Section Dispatch.
Context `{RT : Runtime}.

(** [non_multipart] hands exactly one request to the transport, and makes
    its result of the answer: the body is decoded when the response says
    JSON, or when the method is GET and the body is bracketed; an error of
    the transport, a missing content type and a failing decode are raised
    to the caller. *)
Lemma non_multipart_spec (params host method path : ustr)
      (headers : pydict pyval) (return_resp : bool) (scheme : ustr)
      (credentials : option (pyval * pyval))
      (httplib_params : option (pydict pyval)) (w : world) :
  exists config,
    let req := non_multipart_request params host method path headers
                                     scheme credentials config in
    let run := non_multipart params host method path headers return_resp
                             scheme credentials httplib_params w in
    sent (snd run) = sent w ++ [req]
    /\ threads (snd run) = threads w
    /\ fst run =
       (rc <- http_request req ;;
        ct <- resp_getitem (fst rc) (u "content-type") ;;
        c <- (if startswith ct (u "application/json")
                 || (list_eqb method (u "GET") && bracketed (snd rc))
              then j <- json_loads (VBytes (snd rc)) ;; Ok (Decoded j)
              else Ok (Raw (snd rc))) ;;
        Ok (if return_resp then RPair (fst rc) c else RContent c)).
Proof.
  unfold non_multipart, non_multipart_request, bracketed, with_query.
  destruct (take_debuglevel_spec (or_empty httplib_params) w)
    as (hp' & v & T).
  exists hp'.
  destruct (list_eqb method (u "GET")); destruct params as [|c params];
    unfold bind, get_debuglevel; rewrite T;
    unfold transport_request; cbn [sent threads debuglevel];
    match goal with
    | |- context [http_request ?r] =>
        destruct (http_request r) as [[resp content]|e]
    end;
    unfold set_debuglevel, lift, ret;
    cbn [sent threads debuglevel fst snd rbind];
    try (split; [reflexivity|split; reflexivity]);
    destruct (resp_getitem resp (u "content-type")) as [ct|e];
    cbn [sent threads debuglevel fst snd rbind];
    try (split; [reflexivity|split; reflexivity]);
    destruct (startswith ct (u "application/json"));
    cbn [sent threads debuglevel fst snd rbind and_then bytes_startswith
         bytes_endswith orb andb];
    try (destruct (startswith content (u "{"));
         destruct (endswith content (u "}"));
         destruct (startswith content (u "["));
         destruct (endswith content (u "]")));
    cbn [sent threads debuglevel fst snd rbind and_then bytes_startswith
         bytes_endswith orb andb];
    try (destruct (json_loads (VBytes content)));
    cbn [sent threads debuglevel fst snd rbind];
    (split; [reflexivity|split; reflexivity]).
Qed.
End Dispatch.

Section DispatchMultipart.
Context `{RT : Runtime}.

(** [post_multipart] hands one request to the transport once the body is
    encoded.  The body of the response is decoded when the response says
    JSON; otherwise a GET stops at the comparison of the body, which is
    [bytes], with a [str]. *)
Lemma post_multipart_spec (host selector method : ustr)
      (fields : list (pyval * pyval)) (files : list (pyval * pyval * pyval))
      (headers : option (pydict pyval)) (return_resp : bool) (scheme : ustr)
      (credentials : option (pyval * pyval))
      (httplib_params : option (pydict pyval)) (w : world)
      (content_type body : ustr) :
  encode_multipart_formdata fields files = Ok (content_type, body) ->
  exists config,
    let req := post_multipart_request host selector method content_type body
                                      (or_empty headers) scheme credentials
                                      config in
    let run := post_multipart host selector method fields files headers
                              return_resp scheme credentials httplib_params
                              w in
    sent (snd run) = sent w ++ [req]
    /\ fst run =
       (rc <- http_request req ;;
        ct <- resp_getitem (fst rc) (u "content-type") ;;
        c <- (if startswith ct (u "application/json")
              then j <- json_loads (VBytes (snd rc)) ;; Ok (Decoded j)
              else if list_eqb method (u "GET") then Raise TypeError
                   else Ok (Raw (snd rc))) ;;
        Ok (if return_resp then RPair (fst rc) c else RContent c)).
Proof.
  intros E. unfold post_multipart, post_multipart_request.
  destruct (take_debuglevel_spec (or_empty httplib_params) w)
    as (hp' & v & T).
  exists hp'.
  unfold bind, lift, get_debuglevel; rewrite E, T;
    unfold transport_request; cbn [sent threads debuglevel];
    match goal with
    | |- context [http_request ?r] =>
        destruct (http_request r) as [[resp content]|e]
    end;
    unfold set_debuglevel, ret;
    cbn [sent threads debuglevel fst snd rbind];
    try (split; reflexivity);
    destruct (resp_getitem resp (u "content-type")) as [ct|e];
    cbn [sent threads debuglevel fst snd rbind];
    try (split; reflexivity);
    destruct (startswith ct (u "application/json"));
    destruct (list_eqb method (u "GET"));
    cbn [sent threads debuglevel fst snd rbind and_then bytes_startswith
         bytes_endswith];
    try (destruct (json_loads (VBytes content)));
    cbn [sent threads debuglevel fst snd rbind];
    (split; reflexivity).
Qed.
End DispatchMultipart.

(** ** C2: a bracketed body that is not JSON *)

(** C2, as stated, fails: a GET answered with [text/plain] and the body
    [{bad}] does not give the body back, the decoding error reaches the
    caller. *)
Lemma non_multipart_malformed_body_raises :
  fst (non_multipart
         (RT := Ref.runtime (Ref.answers (u "text/plain") (u "{bad}")))
         [] (u "localhost:9090") (u "GET") (u "/") [] false (u "http") None
         None Ref.start)
  = Raise JSONDecodeError
  /\ fst (non_multipart
            (RT := Ref.runtime (Ref.answers (u "text/plain") (u "{bad}")))
            [] (u "localhost:9090") (u "GET") (u "/") [] false (u "http") None
            None Ref.start)
     <> Ok (RContent (Raw (u "{bad}"))).
Proof.
  split; [reflexivity|discriminate].
Qed.

(** C2, amended.  When a GET made by [non_multipart] is answered with a
    content type that does not start with [application/json] and a bracketed
    body that [json.loads] rejects, the error of [json.loads] is what the
    call raises. *)
Theorem non_multipart_heuristic_error_propagates `{RT : Runtime}
        (params host path : ustr) (headers : pydict pyval)
        (return_resp : bool) (scheme : ustr)
        (credentials : option (pyval * pyval))
        (httplib_params : option (pydict pyval)) (w : world)
        (req : request) (resp : response) (ct content : ustr) (e : exn) :
  let run := non_multipart params host (u "GET") path headers return_resp
                           scheme credentials httplib_params w in
  sent (snd run) = sent w ++ [req] ->
  http_request req = Ok (resp, content) ->
  resp_getitem resp (u "content-type") = Ok ct ->
  startswith ct (u "application/json") = false ->
  bracketed content = true ->
  json_loads (VBytes content) = Raise e ->
  fst run = Raise e.
Proof.
  intros run S H C J B L. subst run.
  destruct (non_multipart_spec params host (u "GET") path headers return_resp
                               scheme credentials httplib_params w)
    as (config & S' & _ & R).
  cbv zeta in S', R. rewrite S' in S.
  apply app_inj_tail in S as [_ <-].
  rewrite R, H. cbn [rbind fst snd]. rewrite C. cbn [rbind].
  rewrite J, B. cbn [orb andb list_eqb]. simpl list_eqb.
  rewrite L. reflexivity.
Qed.

Lemma non_multipart_heuristic_error_propagates_witness :
  fst (non_multipart
         (RT := Ref.runtime (Ref.answers (u "text/html") (u "[1,2,]")))
         [] (u "localhost:9090") (u "GET") (u "/x") [] false (u "http") None
         None Ref.start)
  = Raise JSONDecodeError.
Proof.
  apply (@non_multipart_heuristic_error_propagates
           (Ref.runtime (Ref.answers (u "text/html") (u "[1,2,]")))
           [] (u "localhost:9090") (u "/x") [] false (u "http")
           None None Ref.start
           (non_multipart_request [] (u "localhost:9090") (u "GET")
                                  (u "/x") [] (u "http") None [])
           {| status := 200;
              resp_headers := [(u "content-type", u "text/html")] |}
           (u "text/html") (u "[1,2,]") JSONDecodeError);
    reflexivity.
Defined.

(** ** C8: decoding the response *)

(** What [non_multipart] does with a response that says JSON, or with a
    bracketed body of a GET: the caller gets the decoded value. *)
Lemma non_multipart_decodes `{RT : Runtime}
      (params host method path : ustr) (headers : pydict pyval)
      (scheme : ustr) (credentials : option (pyval * pyval))
      (httplib_params : option (pydict pyval)) (w : world)
      (req : request) (resp : response) (ct content : ustr) (j : json) :
  let run := non_multipart params host method path headers false
                           scheme credentials httplib_params w in
  sent (snd run) = sent w ++ [req] ->
  http_request req = Ok (resp, content) ->
  resp_getitem resp (u "content-type") = Ok ct ->
  startswith ct (u "application/json") = true
  \/ (list_eqb method (u "GET") = true /\ bracketed content = true) ->
  json_loads (VBytes content) = Ok j ->
  fst run = Ok (RContent (Decoded j)).
Proof.
  intros run S H C D L. subst run.
  destruct (non_multipart_spec params host method path headers false
                               scheme credentials httplib_params w)
    as (config & S' & _ & R).
  cbv zeta in S', R. rewrite S' in S.
  apply app_inj_tail in S as [_ <-].
  rewrite R, H. cbn [rbind fst snd]. rewrite C. cbn [rbind].
  assert (X : startswith ct (u "application/json")
              || list_eqb method (u "GET") && bracketed content = true).
  { destruct D as [->|[-> ->]]; [reflexivity|apply orb_true_r]. }
  rewrite X, L. reflexivity.
Qed.

(** And [post_multipart] with a response that says JSON. *)
Lemma post_multipart_decodes `{RT : Runtime}
      (host selector method : ustr) (fields : list (pyval * pyval))
      (headers : option (pydict pyval)) (scheme : ustr)
      (credentials : option (pyval * pyval))
      (httplib_params : option (pydict pyval)) (w : world)
      (req : request) (resp : response) (ct content : ustr) (j : json) :
  let run := post_multipart host selector method fields [] headers false
                            scheme credentials httplib_params w in
  sent (snd run) = sent w ++ [req] ->
  http_request req = Ok (resp, content) ->
  resp_getitem resp (u "content-type") = Ok ct ->
  startswith ct (u "application/json") = true ->
  json_loads (VBytes content) = Ok j ->
  fst run = Ok (RContent (Decoded j)).
Proof.
  intros run S H C D L. subst run.
  destruct (post_multipart_spec host selector method fields [] headers false
                                scheme credentials httplib_params w eq_refl)
    as (config & S' & R).
  cbv zeta in S', R. rewrite S' in S.
  apply app_inj_tail in S as [_ <-].
  rewrite R, H. cbn [rbind fst snd]. rewrite C. cbn [rbind].
  rewrite D, L. reflexivity.
Qed.

(** C8.  Answered with [text/plain] and the body [[1,2,3]], a GET made by
    [non_multipart] returns the list, and so does either dispatcher when the
    answer is [application/json] with the body [{"a": 1}]; the same GET made
    by [post_multipart] raises [TypeError], because it compares the body,
    which is [bytes], with the [str] ['{']. *)
Theorem post_multipart_get_sniffing_raises :
  fst (post_multipart
         (RT := Ref.runtime (Ref.answers (u "text/plain") (u "[1,2,3]")))
         (u "localhost:9090") (u "/") (u "GET") [] [] None false (u "http")
         None None Ref.start)
  = Raise TypeError
  /\ fst (non_multipart
            (RT := Ref.runtime (Ref.answers (u "text/plain") (u "[1,2,3]")))
            [] (u "localhost:9090") (u "GET") (u "/") [] false (u "http")
            None None Ref.start)
     = Ok (RContent (Decoded (JList [JInt 1; JInt 2; JInt 3])))
  /\ fst (non_multipart
            (RT := Ref.runtime
                     (Ref.answers (u "application/json")
                                  (u "{" ++ QUOTE ++ u "a" ++ QUOTE ++ u ": 1}")))
            [] (u "localhost:9090") (u "POST") (u "/") [] false (u "http")
            None None Ref.start)
     = Ok (RContent (Decoded (JObj [(u "a", JInt 1)])))
  /\ fst (post_multipart
            (RT := Ref.runtime
                     (Ref.answers (u "application/json")
                                  (u "{" ++ QUOTE ++ u "a" ++ QUOTE ++ u ": 1}")))
            (u "localhost:9090") (u "/") (u "POST") [] [] None false
            (u "http") None None Ref.start)
     = Ok (RContent (Decoded (JObj [(u "a", JInt 1)]))).
Proof. repeat split; reflexivity. Qed.

(** ** From the entry point to the dispatcher *)

Lemma lookup_setitem_same {V} (d : pydict V) (k : pyval) (v : V) :
  lookup (setitem d k v) k = Some v.
Proof.
  unfold setitem, contains.
  destruct (lookup d k) eqn:L.
  - induction d as [|[[k' v']|] d IH]; simpl in *; try discriminate.
    + destruct (key_eqb k' k) eqn:E; simpl; rewrite E; auto.
    + auto.
  - rewrite lookup_app, L. simpl. now rewrite key_eqb_refl.
Qed.

Lemma lookup_setitem_other {V} (d : pydict V) (s s' : ustr) (v : V) :
  list_eqb s s' = false ->
  lookup (setitem d (VStr s) v) (VStr s') = lookup d (VStr s').
Proof.
  intros N. unfold setitem. destruct (contains d (VStr s)).
  - induction d as [|[[k' v']|] d IH]; simpl; auto.
    destruct (key_eqb k' (VStr s)) eqn:E; simpl.
    + destruct k'; simpl in E; try discriminate.
      apply list_eqb_eq in E. subst. simpl. now rewrite N.
    + now rewrite IH.
  - rewrite lookup_app. destruct (lookup d (VStr s')); [reflexivity|].
    simpl. now rewrite N.
Qed.

Lemma lookup_dict_map {V} (g : V -> V) (d : pydict V) (k : pyval) :
  lookup (dict_map (fun _ => g) d) k = option_map g (lookup d k).
Proof.
  unfold dict_map. induction d as [|[[k' v']|] d IH]; simpl; auto.
  destruct (key_eqb k' k); auto.
Qed.


Lemma add_accepts_eq (accept : option (list ustr)) (headers : pydict pyval) :
  add_accepts (Some (default [] accept)) (Some headers)
  = setitem headers (VStr (u "Accept")) (VStr (accept_value accept)).
Proof.
  unfold add_accepts, accept_value. simpl.
  now destruct (default [] accept).
Qed.

Section Invocation.
Context `{RT : Runtime}.

Lemma _rest_invoke_plain (url method : ustr)
      (params : option (pydict pyval)) (files : option (pydict upload))
      (accept : option (list ustr)) (headers : option (pydict pyval))
      (resp : bool) (httpcallback : option HTTPCallback)
      (credentials : option (pyval * pyval))
      (httplib_params : option (pydict pyval)) (w : world) :
  dict_truthy (or_empty files) = false ->
  _rest_invoke url method params files accept headers resp httpcallback
               credentials httplib_params w
  = match prepare url method params accept headers httpcallback with
    | Ok (m, s, host, path, h, scheme) =>
        non_multipart s host m path h resp scheme credentials
                      httplib_params w
    | Raise e => (Raise e, w)
    end.
Proof.
  intros F. unfold _rest_invoke, prepare.
  unfold bind at 1. unfold lift at 1.
  destruct (match httpcallback with
            | Some cb => apply_callback cb (or_empty params) (or_empty headers)
            | None => Ok (method, url, or_empty params, or_empty headers)
            end) as [[[[m u'] p] h0]|e]; [|reflexivity].
  cbn [rbind].
  unfold bind at 1. unfold lift at 1.
  destruct (encode_params m p
              (add_accepts (Some (default [] accept)) (Some h0)))
    as [[hs s]|e]; [|reflexivity].
  cbn [rbind]. rewrite F.
  unfold bind, lift.
  destruct (extract_host u') as [host|e]; [|reflexivity].
  destruct (extract_path u') as [path|e]; [|reflexivity].
  destruct (fix_headers (Some hs)) as [h|e]; [|reflexivity].
  destruct (extract_scheme u') as [scheme|e]; [|reflexivity].
  reflexivity.
Qed.

(** With files the call stops before any dispatcher: [unpack_params] is
    given the encoded text, which has no [keys]. *)
Lemma _rest_invoke_files (url method : ustr)
      (params : option (pydict pyval)) (files : option (pydict upload))
      (accept : option (list ustr)) (headers : option (pydict pyval))
      (resp : bool) (httpcallback : option HTTPCallback)
      (credentials : option (pyval * pyval))
      (httplib_params : option (pydict pyval)) (w : world) :
  dict_truthy (or_empty files) = true ->
  exists e,
    _rest_invoke url method params files accept headers resp httpcallback
                 credentials httplib_params w = (Raise e, w).
Proof.
  intros F. unfold _rest_invoke.
  unfold bind at 1. unfold lift at 1.
  destruct (match httpcallback with
            | Some cb => apply_callback cb (or_empty params) (or_empty headers)
            | None => Ok (method, url, or_empty params, or_empty headers)
            end) as [[[[m u'] p] h0]|e]; [|now eexists].
  unfold bind at 1. unfold lift at 1.
  destruct (encode_params m p
              (add_accepts (Some (default [] accept)) (Some h0)))
    as [[hs s]|e]; [|now eexists].
  rewrite F.
  unfold bind, lift.
  destruct (extract_host u') as [host|e]; [|now eexists].
  destruct (extract_path u') as [path|e]; [|now eexists].
  simpl. now eexists.
Qed.


End Invocation.

(** ** C4: requests with files *)

(** What [post_multipart] itself sends: the multipart content type, whatever
    content type the headers had. *)
Lemma post_multipart_content_type `{RT : Runtime}
      (host selector method : ustr) (fields : list (pyval * pyval))
      (files : list (pyval * pyval * pyval))
      (headers : option (pydict pyval)) (return_resp : bool) (scheme : ustr)
      (credentials : option (pyval * pyval))
      (httplib_params : option (pydict pyval)) (w : world)
      (content_type body : ustr) :
  encode_multipart_formdata fields files = Ok (content_type, body) ->
  exists req,
    sent (snd (post_multipart host selector method fields files headers
                              return_resp scheme credentials httplib_params w))
    = sent w ++ [req]
    /\ lookup (req_headers req) (VStr (u "Content-Type"))
       = Some (VStr (u "multipart/form-data; boundary=" ++ BOUNDARY)).
Proof.
  intros E.
  destruct (post_multipart_spec host selector method fields files headers
              return_resp scheme credentials httplib_params w E)
    as (config & S & _).
  eexists; split; [exact S|].
  unfold post_multipart_request. cbn [req_headers].
  rewrite lookup_setitem_same.
  unfold encode_multipart_formdata in E.
  destruct (encode_files files); simpl in E; [|discriminate].
  now injection E as <- _.
Qed.

(** C4.  A call of [rest_invoke] with a non-empty [files] mapping never
    gets as far as [post_multipart]: it raises, and nothing is handed to the
    transport, so no multipart content type is sent either. *)
Theorem upload_never_reaches_transport `{RT : Runtime}
        (url method : ustr) (params : option (pydict pyval))
        (files : option (pydict upload)) (accept : option (list ustr))
        (headers : option (pydict pyval)) (resp : bool)
        (httpcallback : option HTTPCallback)
        (credentials : option (pyval * pyval))
        (httplib_params : option (pydict pyval)) (w : world) :
  dict_truthy (or_empty files) = true ->
  exists e,
    rest_invoke url method params files accept headers false resp
                httpcallback credentials httplib_params w
    = (Raise e, w).
Proof.
  intros F. unfold rest_invoke. now apply _rest_invoke_files.
Qed.

Lemma upload_never_reaches_transport_witness :
  exists e,
    rest_invoke
      (RT := Ref.runtime (Ref.answers (u "image/jpeg") (u "thumb")))
      (u "http://localhost:9090/resize") (u "POST") None
      (Some (dict_of [(VStr (u "image"),
                       {| file := VBytes (u "JFIF");
                          filename := VStr (u "sample.jpg") |})]))
      None None false false None None None Ref.start
    = (Raise e, Ref.start).
Proof.
  apply (upload_never_reaches_transport
           (RT := Ref.runtime (Ref.answers (u "image/jpeg") (u "thumb")))).
  reflexivity.
Defined.

(** The exception of that call is the [AttributeError] of
    [unpack_params]. *)
Example upload_raises_attribute_error :
  rest_invoke
    (RT := Ref.runtime (Ref.answers (u "image/jpeg") (u "thumb")))
    (u "http://localhost:9090/resize") (u "POST") None
    (Some (dict_of [(VStr (u "image"),
                     {| file := VBytes (u "JFIF");
                        filename := VStr (u "sample.jpg") |})]))
    None None false false None None None Ref.start
  = (Raise AttributeError, Ref.start).
Proof. reflexivity. Qed.

(** ** C10: the Accept header *)




(** The request of that call, evaluated. *)
Example accept_header_example :
  map (fun r => (req_url r, req_body r,
                 lookup (req_headers r) (VStr (u "Accept"))))
      (sent (snd (rest_invoke
                    (RT := Ref.runtime (Ref.answers (u "text/plain") (u "ok")))
                    (u "http://localhost:9090/") (u "POST")
                    (Some (dict_of [(VStr (u "value"),
                                     VStr (u "store this"))]))
                    None (Some [u "text/plain"; u "text/html"])
                    (Some (dict_of [(VStr (u "Accept"), VStr (u "image/png"))]))
                    false false None None None Ref.start)))
  = [(u "http://localhost:9090/", u "value=store+this",
      Some (VStr (u "text/plain,text/html")))].
Proof. reflexivity. Qed.

(** ** C3: parameters of GET and DELETE *)









(** ** C6: JSON bodies *)




(** * Further properties of the module *)

(** ** The dispatchers, exactly *)

Lemma take_debuglevel_eq (hp : pydict pyval) (w : world) :
  take_debuglevel hp w
  = (Ok (http_config hp),
     {| debuglevel := debug_during hp w; sent := sent w;
        threads := threads w |}).
Proof.
  unfold take_debuglevel, http_config, debug_during.
  destruct (contains hp (VStr (u "debuglevel"))) eqn:C.
  - unfold bind, lift, set_debuglevel, getitem, delitem.
    rewrite C. unfold contains in C.
    destruct (lookup hp (VStr (u "debuglevel"))); [|discriminate].
    reflexivity.
  - unfold ret. unfold contains in C.
    destruct (lookup hp (VStr (u "debuglevel"))); [discriminate|].
    now destruct w.
Qed.

Section DispatchExact.
Context `{RT : Runtime}.

Lemma non_multipart_exact (params host method path : ustr)
      (headers : pydict pyval) (return_resp : bool) (scheme : ustr)
      (credentials : option (pyval * pyval))
      (httplib_params : option (pydict pyval)) (w : world) :
  let req := non_multipart_request params host method path headers
                                   scheme credentials
                                   (http_config (or_empty httplib_params)) in
  non_multipart params host method path headers return_resp scheme
                credentials httplib_params w
  = ((rc <- http_request req ;;
      ct <- resp_getitem (fst rc) (u "content-type") ;;
      c <- (if startswith ct (u "application/json")
               || (list_eqb method (u "GET") && bracketed (snd rc))
            then j <- json_loads (VBytes (snd rc)) ;; Ok (Decoded j)
            else Ok (Raw (snd rc))) ;;
      Ok (if return_resp then RPair (fst rc) c else RContent c)),
     {| debuglevel :=
          match http_request req with
          | Ok _ => debuglevel w
          | Raise _ => debug_during (or_empty httplib_params) w
          end;
        sent := sent w ++ [req];
        threads := threads w |}).
Proof.
  unfold non_multipart, non_multipart_request, bracketed, with_query.
  destruct (list_eqb method (u "GET")); destruct params as [|c params];
    unfold bind, get_debuglevel; rewrite take_debuglevel_eq;
    unfold transport_request; cbn [sent threads debuglevel];
    match goal with
    | |- context [http_request ?r] =>
        destruct (http_request r) as [[resp content]|e]
    end;
    unfold set_debuglevel, lift, ret;
    cbn [sent threads debuglevel fst snd rbind];
    try reflexivity;
    destruct (resp_getitem resp (u "content-type")) as [ct|e];
    cbn [sent threads debuglevel fst snd rbind];
    try reflexivity;
    destruct (startswith ct (u "application/json"));
    cbn [sent threads debuglevel fst snd rbind and_then bytes_startswith
         bytes_endswith orb andb];
    try (destruct (startswith content (u "{"));
         destruct (endswith content (u "}"));
         destruct (startswith content (u "["));
         destruct (endswith content (u "]")));
    cbn [sent threads debuglevel fst snd rbind and_then bytes_startswith
         bytes_endswith orb andb];
    try (destruct (json_loads (VBytes content)));
    cbn [sent threads debuglevel fst snd rbind];
    reflexivity.
Qed.

Lemma post_multipart_exact (host selector method : ustr)
      (fields : list (pyval * pyval)) (files : list (pyval * pyval * pyval))
      (headers : option (pydict pyval)) (return_resp : bool) (scheme : ustr)
      (credentials : option (pyval * pyval))
      (httplib_params : option (pydict pyval)) (w : world)
      (content_type body : ustr) :
  encode_multipart_formdata fields files = Ok (content_type, body) ->
  let req := post_multipart_request host selector method content_type body
                                    (or_empty headers) scheme credentials
                                    (http_config (or_empty httplib_params)) in
  post_multipart host selector method fields files headers return_resp
                 scheme credentials httplib_params w
  = ((rc <- http_request req ;;
      ct <- resp_getitem (fst rc) (u "content-type") ;;
      c <- (if startswith ct (u "application/json")
            then j <- json_loads (VBytes (snd rc)) ;; Ok (Decoded j)
            else if list_eqb method (u "GET") then Raise TypeError
                 else Ok (Raw (snd rc))) ;;
      Ok (if return_resp then RPair (fst rc) c else RContent c)),
     {| debuglevel :=
          match http_request req with
          | Ok _ => debuglevel w
          | Raise _ => debug_during (or_empty httplib_params) w
          end;
        sent := sent w ++ [req];
        threads := threads w |}).
Proof.
  intros E. unfold post_multipart, post_multipart_request.
  unfold bind, lift, get_debuglevel; rewrite E, take_debuglevel_eq;
    unfold transport_request; cbn [sent threads debuglevel];
    match goal with
    | |- context [http_request ?r] =>
        destruct (http_request r) as [[resp content]|e]
    end;
    unfold set_debuglevel, ret;
    cbn [sent threads debuglevel fst snd rbind];
    try reflexivity;
    destruct (resp_getitem resp (u "content-type")) as [ct|e];
    cbn [sent threads debuglevel fst snd rbind];
    try reflexivity;
    destruct (startswith ct (u "application/json"));
    destruct (list_eqb method (u "GET"));
    cbn [sent threads debuglevel fst snd rbind and_then bytes_startswith
         bytes_endswith];
    try (destruct (json_loads (VBytes content)));
    cbn [sent threads debuglevel fst snd rbind];
    reflexivity.
Qed.
End DispatchExact.

(** ** What the dispatchers send *)




(** X3.  [httplib2.debuglevel] is put back to what it was exactly when the
    transport answers; when the transport raises, the global keeps the value
    [httplib_params] asked for.  Either way the [debuglevel] entry is not
    among the parameters [httplib2.Http] is set up with. *)
Theorem debuglevel_restored_on_answer `{RT : Runtime}
        (params host method path : ustr) (headers : pydict pyval)
        (return_resp : bool) (scheme : ustr)
        (credentials : option (pyval * pyval))
        (httplib_params : pydict pyval) (w : world) (req : request) :
  dict_wf httplib_params = true ->
  sent (snd (non_multipart params host method path headers return_resp
                           scheme credentials (Some httplib_params) w))
  = sent w ++ [req] ->
  debuglevel (snd (non_multipart params host method path headers return_resp
                                 scheme credentials (Some httplib_params) w))
  = (if is_ok (http_request req) then debuglevel w
     else debug_during httplib_params w)
  /\ lookup (req_config req) (VStr (u "debuglevel")) = None
  /\ (forall k, key_eqb (VStr (u "debuglevel")) k = false ->
                lookup (req_config req) k = lookup httplib_params k).
Proof.
  intros W. rewrite non_multipart_exact. cbn [snd sent debuglevel or_empty].
  intros S. apply app_inj_tail in S as [_ <-].
  split; [|split].
  - now destruct (http_request _).
  - unfold non_multipart_request, http_config. cbn [req_config].
    destruct (contains httplib_params (VStr (u "debuglevel"))) eqn:C.
    + now apply lookup_remove_same.
    + unfold contains in C.
      now destruct (lookup httplib_params (VStr (u "debuglevel"))).
  - intros k Hk. unfold non_multipart_request, http_config. cbn [req_config].
    destruct (contains httplib_params (VStr (u "debuglevel"))); [|reflexivity].
    clear W. induction httplib_params as [|[[k0 v0]|] d IH]; simpl; auto.
    destruct (key_eqb k0 (VStr (u "debuglevel"))) eqn:E; simpl.
    + destruct k0; simpl in E; try discriminate.
      apply list_eqb_eq in E. subst. now rewrite Hk.
    + now rewrite IH.
Qed.

Lemma debuglevel_restored_on_answer_witness :
  debuglevel
    (snd (non_multipart
            (RT := Ref.runtime (fun _ => Raise TransportError))
            [] (u "localhost:9090") (u "GET") (u "/") [] false (u "http")
            None
            (Some (dict_of [(VStr (u "debuglevel"), VInt 2);
                            (VStr (u "timeout"), VInt 5)]))
            Ref.start))
  = (if is_ok (Raise (A := response * list N) TransportError)
     then debuglevel Ref.start
     else debug_during (dict_of [(VStr (u "debuglevel"), VInt 2);
                                 (VStr (u "timeout"), VInt 5)]) Ref.start).
Proof.
  apply (debuglevel_restored_on_answer
           (RT := Ref.runtime (fun _ => Raise TransportError))
           [] (u "localhost:9090") (u "GET") (u "/") [] false (u "http") None
           (dict_of [(VStr (u "debuglevel"), VInt 2);
                     (VStr (u "timeout"), VInt 5)])
           Ref.start
           (non_multipart_request
              [] (u "localhost:9090") (u "GET") (u "/") [] (u "http") None
              [None; Some (VStr (u "timeout"), VInt 5)]));
    reflexivity.
Defined.

(** ** What the dispatchers make of the answer *)

(** X4.  A failure of the transport reaches the caller of [non_multipart]
    as it is, and a response without a [content-type] header makes the call
    raise [KeyError]; in both cases the request has been handed to the
    transport. *)
Theorem non_multipart_failures `{RT : Runtime}
        (params host method path : ustr) (headers : pydict pyval)
        (return_resp : bool) (scheme : ustr)
        (credentials : option (pyval * pyval))
        (httplib_params : option (pydict pyval)) (w : world) (req : request) :
  sent (snd (non_multipart params host method path headers return_resp
                           scheme credentials httplib_params w))
  = sent w ++ [req] ->
  (forall e, http_request req = Raise e ->
             fst (non_multipart params host method path headers return_resp
                                scheme credentials httplib_params w)
             = Raise e)
  /\ (forall resp content,
         http_request req = Ok (resp, content) ->
         resp_lookup (resp_headers resp) (u "content-type") = None ->
         fst (non_multipart params host method path headers return_resp
                            scheme credentials httplib_params w)
         = Raise KeyError).
Proof.
  rewrite non_multipart_exact. cbn [snd sent fst].
  intros S. apply app_inj_tail in S as [_ <-].
  split.
  - intros e H. now rewrite H.
  - intros resp content H L. rewrite H. cbn [rbind fst].
    unfold resp_getitem. now rewrite L.
Qed.

Lemma non_multipart_failures_witness :
  fst (non_multipart
         (RT := Ref.runtime
                  (fun _ => Ok ({| status := 204; resp_headers := [] |}, [])))
         (u "a=1") (u "localhost:9090") (u "DELETE") (u "/items/3") [] false
         (u "http") None None Ref.start)
  = Raise KeyError.
Proof.
  apply (proj2
           (non_multipart_failures
              (RT := Ref.runtime
                       (fun _ =>
                          Ok ({| status := 204; resp_headers := [] |}, [])))
              (u "a=1") (u "localhost:9090") (u "DELETE") (u "/items/3") []
              false (u "http") None None Ref.start
              (non_multipart_request
                 (u "a=1") (u "localhost:9090") (u "DELETE")
                 (u "/items/3") [] (u "http") None [])
              eq_refl)
           {| status := 204; resp_headers := [] |} []);
    reflexivity.
Defined.

(** X5.  [non_multipart] gives the body back as it came, undecoded,
    whenever the response does not say JSON and either the method is not
    GET or the body is not bracketed: only a GET is ever sniffed. *)
Theorem non_multipart_returns_raw_body `{RT : Runtime}
        (params host method path : ustr) (headers : pydict pyval)
        (scheme : ustr) (credentials : option (pyval * pyval))
        (httplib_params : option (pydict pyval)) (w : world)
        (req : request) (resp : response) (ct content : ustr) :
  sent (snd (non_multipart params host method path headers false
                           scheme credentials httplib_params w))
  = sent w ++ [req] ->
  http_request req = Ok (resp, content) ->
  resp_getitem resp (u "content-type") = Ok ct ->
  startswith ct (u "application/json") = false ->
  list_eqb method (u "GET") && bracketed content = false ->
  fst (non_multipart params host method path headers false
                     scheme credentials httplib_params w)
  = Ok (RContent (Raw content)).
Proof.
  rewrite non_multipart_exact. cbn [snd sent fst].
  intros S H C J B. apply app_inj_tail in S as [_ <-].
  rewrite H. cbn [rbind fst snd]. rewrite C. cbn [rbind].
  now rewrite J, B.
Qed.

Lemma non_multipart_returns_raw_body_witness :
  fst (non_multipart
         (RT := Ref.runtime (Ref.answers (u "text/plain") (u "[1,2,3]")))
         (u "a=1") (u "localhost:9090") (u "POST") (u "/items") [] false
         (u "http") None None Ref.start)
  = Ok (RContent (Raw (u "[1,2,3]"))).
Proof.
  apply (@non_multipart_returns_raw_body
           (Ref.runtime (Ref.answers (u "text/plain") (u "[1,2,3]")))
           (u "a=1") (u "localhost:9090") (u "POST") (u "/items") []
           (u "http") None None Ref.start
           (non_multipart_request
              (u "a=1") (u "localhost:9090") (u "POST") (u "/items") []
              (u "http") None [])
           {| status := 200;
              resp_headers := [(u "content-type", u "text/plain")] |}
           (u "text/plain") (u "[1,2,3]"));
    reflexivity.
Defined.

(** X6.  [post_multipart] gives the body back undecoded for every method
    other than GET when the response does not say JSON, however the body
    looks. *)
Theorem post_multipart_returns_raw_body `{RT : Runtime}
        (host selector method : ustr) (fields : list (pyval * pyval))
        (files : list (pyval * pyval * pyval))
        (headers : option (pydict pyval)) (scheme : ustr)
        (credentials : option (pyval * pyval))
        (httplib_params : option (pydict pyval)) (w : world)
        (req : request) (resp : response) (ct content : ustr) :
  is_ok (encode_multipart_formdata fields files) = true ->
  sent (snd (post_multipart host selector method fields files headers false
                            scheme credentials httplib_params w))
  = sent w ++ [req] ->
  http_request req = Ok (resp, content) ->
  resp_getitem resp (u "content-type") = Ok ct ->
  startswith ct (u "application/json") = false ->
  list_eqb method (u "GET") = false ->
  fst (post_multipart host selector method fields files headers false
                      scheme credentials httplib_params w)
  = Ok (RContent (Raw content)).
Proof.
  intros E.
  destruct (encode_multipart_formdata fields files) as [[cty body]|e] eqn:Enc;
    [clear E|discriminate].
  rewrite (post_multipart_exact _ _ _ _ _ _ _ _ _ _ _ Enc).
  cbn [snd sent fst].
  intros S H C J B. apply app_inj_tail in S as [_ <-].
  rewrite H. cbn [rbind fst snd]. rewrite C. cbn [rbind].
  now rewrite J, B.
Qed.

Lemma post_multipart_returns_raw_body_witness :
  fst (post_multipart
         (RT := Ref.runtime (Ref.answers (u "text/html") (u "{x}")))
         (u "localhost:9090") (u "/resize") (u "POST")
         [(VStr (u "w"), VInt 10)] [] None false (u "http") None None
         Ref.start)
  = Ok (RContent (Raw (u "{x}"))).
Proof.
  apply (@post_multipart_returns_raw_body
           (Ref.runtime (Ref.answers (u "text/html") (u "{x}")))
           (u "localhost:9090") (u "/resize") (u "POST")
           [(VStr (u "w"), VInt 10)] [] None (u "http") None None Ref.start
           (post_multipart_request
              (u "localhost:9090") (u "/resize") (u "POST")
              (u "multipart/form-data; boundary=" ++ BOUNDARY)
              (multipart_body [(VStr (u "w"), VInt 10)] [] [])
              [] (u "http") None [])
           {| status := 200;
              resp_headers := [(u "content-type", u "text/html")] |}
           (u "text/html") (u "{x}"));
    reflexivity.
Defined.

(** X7.  The [return_resp] flag changes the shape of the result and nothing
    else: the same request is sent and the same state is left; where the
    call without the flag returns a content, the call with the flag returns
    the response of the transport paired with that content; where one
    raises, the other raises the same. *)
Theorem return_resp_changes_the_shape_only `{RT : Runtime}
        (params host method path : ustr) (headers : pydict pyval)
        (scheme : ustr) (credentials : option (pyval * pyval))
        (httplib_params : option (pydict pyval)) (w : world) :
  let req := non_multipart_request params host method path headers
                                   scheme credentials
                                   (http_config (or_empty httplib_params)) in
  let plain := non_multipart params host method path headers false scheme
                             credentials httplib_params w in
  let full := non_multipart params host method path headers true scheme
                            credentials httplib_params w in
  snd full = snd plain
  /\ match fst plain with
     | Ok (RContent c) =>
         exists resp content,
           http_request req = Ok (resp, content)
           /\ fst full = Ok (RPair resp c)
     | Ok _ => False
     | Raise e => fst full = Raise e
     end.
Proof.
  cbv zeta. rewrite !non_multipart_exact. cbn [fst snd].
  split; [reflexivity|].
  destruct (http_request _) as [[resp content]|e]; cbn [rbind fst snd];
    [|reflexivity].
  destruct (resp_getitem resp (u "content-type")) as [ct|e]; cbn [rbind];
    [|reflexivity].
  destruct (startswith ct (u "application/json")
            || list_eqb method (u "GET") && bracketed content).
  - destruct (json_loads (VBytes content)); cbn [rbind]; [|reflexivity].
    now exists resp, content.
  - cbn [rbind]. now exists resp, content.
Qed.

(** ** The entry points *)

(** X8.  A call of [rest_invoke] hands at most one request to the
    transport, and a call without [do_async] makes no [Thread] object. *)
Theorem rest_invoke_sends_at_most_one `{RT : Runtime}
        (url method : ustr) (params : option (pydict pyval))
        (files : option (pydict upload)) (accept : option (list ustr))
        (headers : option (pydict pyval)) (do_async resp : bool)
        (httpcallback : option HTTPCallback)
        (credentials : option (pyval * pyval))
        (httplib_params : option (pydict pyval)) (w : world) :
  (sent (snd (rest_invoke url method params files accept headers do_async
                          resp httpcallback credentials httplib_params w))
   = sent w
   \/ exists req,
       sent (snd (rest_invoke url method params files accept headers do_async
                              resp httpcallback credentials httplib_params w))
       = sent w ++ [req])
  /\ (threads (snd (rest_invoke url method params files accept headers
                                do_async resp httpcallback credentials
                                httplib_params w))
      = if do_async
        then threads w
             ++ [{| thread_args :=
                      {| a_url := url; a_method := method; a_params := params;
                         a_files := files; a_accept := accept;
                         a_headers := headers; a_resp := resp;
                         a_httpcallback := httpcallback;
                         a_credentials := credentials;
                         a_httplib_params := httplib_params |};
                    started := false |}]
        else threads w).
Proof.
  unfold rest_invoke. destruct do_async; [split; [now left|reflexivity]|].
  destruct (dict_truthy (or_empty files)) eqn:F.
  - destruct (_rest_invoke_files url method params files accept headers resp
                httpcallback credentials httplib_params w F) as [e ->].
    split; [now left|reflexivity].
  - rewrite _rest_invoke_plain by assumption.
    destruct (prepare url method params accept headers httpcallback)
      as [[[[[[m s] host] path] h] scheme]|e]; [|split; [now left|reflexivity]].
    rewrite non_multipart_exact. cbn [snd sent threads].
    split; [right; now eexists|reflexivity].
Qed.

Lemma forallb_items_setitem {V} (P : pyval -> V -> bool) (d : pydict V)
      (s : ustr) (v : V) :
  forallb (fun kv => P (fst kv) (snd kv)) (items d) = true ->
  P (VStr s) v = true ->
  forallb (fun kv => P (fst kv) (snd kv)) (items (setitem d (VStr s) v)) = true.
Proof.
  intros A Pv. unfold setitem. destruct (contains d (VStr s)).
  - induction d as [|[[k0 v0]|] d IH]; simpl in *; auto.
    apply andb_true_iff in A as [A1 A2].
    destruct (key_eqb k0 (VStr s)) eqn:E; simpl.
    + destruct k0; simpl in E; try discriminate.
      apply list_eqb_eq in E. subst. now rewrite Pv, A2.
    + now rewrite A1, IH.
  - induction d as [|[[k0 v0]|] d IH]; simpl in *.
    + now rewrite Pv.
    + apply andb_true_iff in A as [A1 A2]. now rewrite A1, IH.
    + auto.
Qed.




(** X10.  With an [httpcallback] whose URL already has a [?] and whose
    query string is not empty, the call raises [TypeError] (the code
    multiplies ["&"] by the query string) before anything is sent. *)
Theorem callback_query_on_query_raises `{RT : Runtime}
        (url method : ustr) (params : option (pydict pyval))
        (files : option (pydict upload)) (accept : option (list ustr))
        (headers : option (pydict pyval)) (resp : bool)
        (cb : HTTPCallback) (credentials : option (pyval * pyval))
        (httplib_params : option (pydict pyval)) (w : world) :
  cb_queryString cb <> [] ->
  str_in 63 (cb_url cb) = true ->
  rest_invoke url method params files accept headers false resp (Some cb)
              credentials httplib_params w
  = (Raise TypeError, w).
Proof.
  intros Q I. unfold rest_invoke, _rest_invoke, apply_callback.
  unfold bind at 1. unfold lift at 1.
  destruct (cb_queryString cb); [congruence|].
  now rewrite I.
Qed.

Lemma callback_query_on_query_raises_witness :
  rest_invoke
    (RT := Ref.runtime (Ref.answers (u "text/plain") (u "ok")))
    (u "http://ignored/") (u "GET") None None None None false false
    (Some {| cb_method := u "POST"; cb_url := u "http://localhost:9090/a?b=1";
             cb_queryString := u "c=2"; cb_params := [];
             cb_headers := [] |})
    None None Ref.start
  = (Raise TypeError, Ref.start).
Proof.
  apply (callback_query_on_query_raises
           (RT := Ref.runtime (Ref.answers (u "text/plain") (u "ok"))));
    [discriminate|reflexivity].
Defined.

(** X11.  Otherwise a call with an [httpcallback] is the call without one
    on the callback's method, on the callback's URL with its query string
    appended after a [?], and on the caller's parameters and headers
    overwritten by the callback's; the [url] and [method] arguments play no
    part. *)
Theorem callback_replaces_the_arguments `{RT : Runtime}
        (url method : ustr) (params : option (pydict pyval))
        (files : option (pydict upload)) (accept : option (list ustr))
        (headers : option (pydict pyval)) (resp : bool)
        (cb : HTTPCallback) (credentials : option (pyval * pyval))
        (httplib_params : option (pydict pyval)) (w : world) :
  cb_queryString cb = [] \/ str_in 63 (cb_url cb) = false ->
  rest_invoke url method params files accept headers false resp (Some cb)
              credentials httplib_params w
  = rest_invoke
      (match cb_queryString cb with
       | [] => cb_url cb
       | _ :: _ => cb_url cb ++ u "?" ++ cb_queryString cb
       end)
      (cb_method cb)
      (Some (fold_left (fun d kv => setitem d (fst kv) (snd kv))
                       (cb_params cb) (or_empty params)))
      files accept
      (Some (fold_left (fun d kv => setitem d (fst kv) (snd kv))
                       (cb_headers cb) (or_empty headers)))
      false resp None credentials httplib_params w.
Proof.
  intros H. unfold rest_invoke, _rest_invoke, apply_callback.
  unfold bind at 1. unfold lift at 1.
  unfold bind at 3. unfold lift at 5.
  cbn [or_empty].
  destruct (cb_queryString cb) as [|c qs]; [reflexivity|].
  destruct H as [H|H]; [discriminate|].
  rewrite H. reflexivity.
Qed.

Lemma callback_replaces_the_arguments_witness :
  rest_invoke
    (RT := Ref.runtime (Ref.answers (u "text/plain") (u "ok")))
    (u "http://ignored/") (u "GET")
    (Some (dict_of [(VStr (u "a"), VStr (u "1"))])) None None None false false
    (Some {| cb_method := u "POST"; cb_url := u "http://localhost:9090/a";
             cb_queryString := u "c=2";
             cb_params := [(VStr (u "a"), VStr (u "2"))];
             cb_headers := [] |})
    None None Ref.start
  = rest_invoke
      (RT := Ref.runtime (Ref.answers (u "text/plain") (u "ok")))
      (u "http://localhost:9090/a" ++ u "?" ++ u "c=2") (u "POST")
      (Some (fold_left (fun d kv => setitem d (fst kv) (snd kv))
                       [(VStr (u "a"), VStr (u "2"))]
                       (dict_of [(VStr (u "a"), VStr (u "1"))])))
      None None (Some []) false false None None None Ref.start.
Proof.
  apply (callback_replaces_the_arguments
           (RT := Ref.runtime (Ref.answers (u "text/plain") (u "ok")))
           (u "http://ignored/") (u "GET")
           (Some (dict_of [(VStr (u "a"), VStr (u "1"))])) None None None
           false
           {| cb_method := u "POST"; cb_url := u "http://localhost:9090/a";
              cb_queryString := u "c=2";
              cb_params := [(VStr (u "a"), VStr (u "2"))];
              cb_headers := [] |}
           None None Ref.start).
  right. reflexivity.
Defined.



(** ** The normalisers *)

Lemma next_entry_first {V} (holes post : pydict V) (k : pyval) (v : V) :
  dict_len holes = O ->
  next_entry (holes ++ Some (k, v) :: post) O = Some (List.length holes, k).
Proof.
  induction holes as [|[e|] holes IH]; simpl; intros H;
    [reflexivity|discriminate|].
  now rewrite IH.
Qed.

Lemma for_each_key_first {V} (body : pyval -> pydict V -> result (pydict V))
      (d : pydict V) (i : nat) (k : pyval) (e : exn) :
  next_entry d O = Some (i, k) ->
  body k d = Raise e ->
  for_each_key body d = Raise e.
Proof.
  intros N B. unfold for_each_key.
  rewrite for_keys_eq, Nat.eqb_refl, N. simpl.
  destruct (next_entry_some _ N) as (holes & v & post & E & _ & _).
  assert (L : dict_len d = S (dict_len holes + dict_len post)).
  { rewrite E, dict_len_app. simpl. lia. }
  rewrite L, B. reflexivity.
Qed.

Lemma contains_setitem_keep {V} (d : pydict V) (k nk : pyval) (v : V) :
  contains d k = true -> contains (setitem d nk v) k = true.
Proof.
  intros C. unfold setitem. destruct (contains d nk).
  - now rewrite contains_replace.
  - now rewrite contains_app, C.
Qed.

(** X13.  A header mapping whose first key is not a string makes
    [fix_headers] raise [KeyError]: the entry is stored under [str(k)],
    deleted under [k], and then read under [k]. *)
Theorem fix_headers_first_key_not_str (d : pydict pyval) (i : nat)
        (k : pyval) :
  dict_wf d = true ->
  next_entry d O = Some (i, k) ->
  isinstance_str k = false ->
  fix_headers (Some d) = Raise KeyError.
Proof.
  intros W N S. unfold fix_headers. cbn [or_empty].
  apply (for_each_key_first _ _ N).
  destruct (next_entry_some _ N) as (holes & v & post & -> & _ & _).
  unfold fix_headers_step. rewrite S. cbn [negb].
  rewrite getitem_here by assumption. cbn [rbind].
  unfold delitem.
  rewrite contains_setitem_keep by apply contains_here.
  cbn [rbind]. unfold getitem at 1.
  rewrite lookup_remove_same by (now apply wf_setitem).
  reflexivity.
Qed.

Lemma fix_headers_first_key_not_str_witness :
  fix_headers (Some (dict_of [(VBytes (u "X-Id"), VStr (u "7"));
                              (VStr (u "Accept"), VStr (u "*/*"))]))
  = Raise KeyError.
Proof.
  apply (@fix_headers_first_key_not_str
           (dict_of [(VBytes (u "X-Id"), VStr (u "7"));
                     (VStr (u "Accept"), VStr (u "*/*"))])
           O (VBytes (u "X-Id")));
    reflexivity.
Defined.

Lemma fix_files_key_clean (k : pyval) (d : pydict upload) :
  ascii_str k = true -> fix_files_key k d = Ok d.
Proof.
  destruct k; simpl; try discriminate. intros H.
  unfold fix_files_key; simpl. unfold encode_ascii. now rewrite H.
Qed.

Lemma fix_files_filename_eq pre k f post :
  dict_wf (pre ++ Some (k, f) :: post) = true ->
  fix_files_filename k (pre ++ Some (k, f) :: post) =
  (f' <- fix_upload f ;; Ok (pre ++ Some (k, f') :: post)).
Proof.
  intros W. unfold fix_files_filename, fix_upload.
  rewrite getitem_here by assumption. cbn [rbind].
  destruct (filename f) as [| | |s|] eqn:Fn; try reflexivity.
  simpl. unfold encode_ascii.
  destruct (is_ascii s); cbn [rbind]; [reflexivity|].
  try rewrite Fn. simpl.
  destruct (encode_utf8 s) as [b|e]; cbn [rbind]; [|reflexivity].
  now rewrite setitem_here.
Qed.

(** X14.  On a [files] mapping whose keys are ASCII-only strings
    [fix_files] keeps every entry in place and only rewrites file names: an
    ASCII name stays, any other text becomes its UTF-8 bytes, and a file
    name that is not a [str] makes the call raise [AttributeError]. *)
Theorem fix_files_of_clean_keys (files : pydict upload) :
  dict_wf files = true ->
  all_keys ascii_str files = true ->
  fix_files (Some files) = dict_mapM fix_upload files.
Proof.
  intros W A. unfold fix_files. cbn [or_empty].
  rewrite (for_each_key_values fix_files_key (fun k _ => ascii_str k)
             (fun v => Ok v)); try assumption.
  - rewrite dict_mapM_ok_id. cbn [rbind].
    apply (for_each_key_values fix_files_filename (fun _ _ => true)).
    + intros. now apply fix_files_filename_eq.
    + assumption.
    + now apply forallb_forall.
  - intros. now rewrite fix_files_key_clean.
Qed.

Lemma fix_files_of_clean_keys_witness :
  fix_files (Some (dict_of [(VStr (u "image"),
                             {| file := VBytes (u "JFIF");
                                filename := VStr (u "caf" ++ [233; 46; 106]) |})]))
  = dict_mapM fix_upload
      (dict_of [(VStr (u "image"),
                 {| file := VBytes (u "JFIF");
                    filename := VStr (u "caf" ++ [233; 46; 106]) |})]).
Proof.
  apply fix_files_of_clean_keys; reflexivity.
Defined.

(** X15.  A [files] mapping whose first key is not a string makes
    [fix_files] raise [AttributeError]: after moving the entry to [str(k)]
    the loop calls [k.encode] on the key itself. *)
Theorem fix_files_first_key_not_str (files : pydict upload) (i : nat)
        (k : pyval) :
  dict_wf files = true ->
  next_entry files O = Some (i, k) ->
  isinstance_str k = false ->
  fix_files (Some files) = Raise AttributeError.
Proof.
  intros W N S. unfold fix_files. cbn [or_empty].
  rewrite (for_each_key_first fix_files_key files N (e := AttributeError));
    [reflexivity|].
  destruct (next_entry_some _ N) as (holes & v & post & -> & _ & _).
  unfold fix_files_key. rewrite S. cbn [negb].
  rewrite getitem_here by assumption. cbn [rbind].
  unfold delitem.
  rewrite contains_setitem_keep by apply contains_here.
  cbn [rbind]. now destruct k.
Qed.

Lemma fix_files_first_key_not_str_witness :
  fix_files (Some (dict_of [(VInt 1,
                             {| file := VBytes (u "JFIF");
                                filename := VStr (u "a.jpg") |})]))
  = Raise AttributeError.
Proof.
  apply (@fix_files_first_key_not_str
           (dict_of [(VInt 1, {| file := VBytes (u "JFIF");
                                 filename := VStr (u "a.jpg") |})])
           O (VInt 1));
    reflexivity.
Defined.

Lemma in_items_contains {V} (d : pydict V) (k k0 : pyval) (v : V) :
  In (k, v) (items d) -> key_eqb k k0 = true -> contains d k0 = true.
Proof.
  induction d as [|[[k1 v1]|] d IH]; simpl; intros I E; try easy.
  - rewrite contains_cons_some. destruct I as [[= -> ->]|I].
    + now rewrite E.
    + rewrite (IH I E). apply orb_true_r.
  - rewrite contains_cons_none. auto.
Qed.

Lemma wf_lookup_items {V} (d : pydict V) (k : pyval) (v : V) :
  dict_wf d = true -> In (k, v) (items d) -> lookup d k = Some v.
Proof.
  induction d as [|[[k1 v1]|] d IH]; simpl; intros W I; try easy.
  - apply andb_true_iff in W as [W1 W2].
    destruct I as [[= -> ->]|I].
    + now rewrite key_eqb_refl.
    + destruct (key_eqb k1 k) eqn:E.
      * rewrite key_eqb_sym in E.
        rewrite (in_items_contains _ _ _ _ I E) in W1. discriminate.
      * now apply IH.
  - now apply IH.
Qed.

(** X16.  On a dict, [unpack_params] lists its entries as (key, value)
    pairs and [unpack_files] as (key, file name, content) triples, both in
    the order of the dict, and neither raises. *)
Theorem unpack_lists_the_entries (params : pydict pyval)
        (files : pydict upload) :
  dict_wf params = true ->
  dict_wf files = true ->
  unpack_params (PDict params) = Ok (items params)
  /\ unpack_files files
     = Ok (map (fun kv => (fst kv, filename (snd kv), file (snd kv)))
               (items files)).
Proof.
  intros Wp Wf. split.
  - unfold unpack_params, dict_keys.
    assert (X : forall l, incl l (items params) ->
                          mapM (fun k => v <- getitem params k ;; Ok (k, v))
                               (map fst l) = Ok l).
    { induction l as [|[k v] l IH]; intros I; [reflexivity|].
      simpl. unfold getitem at 1.
      rewrite (wf_lookup_items _ _ _ Wp (I _ (or_introl eq_refl))).
      cbn [rbind]. rewrite IH; [reflexivity|].
      intros x Hx. apply I. now right. }
    apply X, incl_refl.
  - unfold unpack_files, dict_keys.
    assert (X : forall l, incl l (items files) ->
                          mapM (fun k =>
                                  f <- getitem files k ;;
                                  f' <- getitem files k ;;
                                  Ok (k, filename f, file f'))
                               (map fst l)
                          = Ok (map (fun kv => (fst kv, filename (snd kv),
                                                file (snd kv))) l)).
    { induction l as [|[k v] l IH]; intros I; [reflexivity|].
      simpl. unfold getitem at 1 2.
      rewrite (wf_lookup_items _ _ _ Wf (I _ (or_introl eq_refl))).
      cbn [rbind]. rewrite IH; [reflexivity|].
      intros x Hx. apply I. now right. }
    apply X, incl_refl.
Qed.

Lemma unpack_lists_the_entries_witness :
  unpack_params (PDict (dict_of [(VStr (u "a"), VInt 1);
                                 (VStr (u "b"), VStr (u "x"));
                                 (VStr (u "a"), VInt 2)]))
  = Ok (items (dict_of [(VStr (u "a"), VInt 1);
                        (VStr (u "b"), VStr (u "x"));
                        (VStr (u "a"), VInt 2)])).
Proof.
  apply (unpack_lists_the_entries
           (dict_of [(VStr (u "a"), VInt 1); (VStr (u "b"), VStr (u "x"));
                     (VStr (u "a"), VInt 2)])
           []); reflexivity.
Defined.

(** X17.  A mapping of ASCII-only strings to ASCII-only strings goes
    through [fix_params] and through [fix_headers] unchanged. *)
Theorem normalisers_keep_ascii_text (d : pydict pyval) :
  dict_wf d = true ->
  all_keys ascii_str d = true ->
  all_values ascii_str d = true ->
  fix_params (Some d) = Ok d /\ fix_headers (Some d) = Ok d.
Proof.
  intros W K Vs. split.
  - rewrite fix_params_clean by assumption.
    clear W K. unfold all_values in Vs.
    induction d as [|[[k v]|] d IH]; cbn [dict_mapM items forallb snd] in *;
      auto.
    + apply andb_true_iff in Vs as [V1 V2].
      assert (F : fix_value v = Ok v).
      { destruct v; try discriminate. unfold fix_value. simpl in *.
        now rewrite V1. }
      rewrite F, (IH V2). reflexivity.
    + now rewrite IH.
  - rewrite fix_headers_clean; try assumption.
    + f_equal. clear W K. unfold all_values in Vs. unfold dict_map.
      induction d as [|[[k v]|] d IH]; simpl in *; auto.
      * apply andb_true_iff in Vs as [V1 V2].
        destruct v; try discriminate. now rewrite IH.
      * now rewrite IH.
    + clear W. unfold all_keys, all_values in *.
      induction d as [|[[k v]|] d IH]; cbn [items forallb fst snd] in *; auto.
      apply andb_true_iff in K as [K1 K2].
      apply andb_true_iff in Vs as [V1 V2].
      rewrite (IH K2 V2), andb_true_r.
      unfold clean_header. rewrite K1.
      destruct v; try discriminate. exact V1.
Qed.

Lemma normalisers_keep_ascii_text_witness :
  fix_params (Some (dict_of [(VStr (u "value"), VStr (u "store this"))]))
  = Ok (dict_of [(VStr (u "value"), VStr (u "store this"))])
  /\ fix_headers (Some (dict_of [(VStr (u "value"), VStr (u "store this"))]))
     = Ok (dict_of [(VStr (u "value"), VStr (u "store this"))]).
Proof.
  apply normalisers_keep_ascii_text; reflexivity.
Defined.

(** ** Headers on their way to the transport *)

Lemma lookup_setitem_str_other {V} (d : pydict V) (s : ustr) (k : pyval)
      (v : V) :
  key_eqb (VStr s) k = false ->
  lookup (setitem d (VStr s) v) k = lookup d k.
Proof.
  intros Hk. unfold setitem. destruct (contains d (VStr s)).
  - induction d as [|[[k' v']|] d IH]; simpl; auto.
    destruct (key_eqb k' (VStr s)) eqn:E; simpl.
    + destruct k'; simpl in E; try discriminate.
      apply list_eqb_eq in E. rewrite E, Hk. reflexivity.
    + now rewrite IH.
  - rewrite lookup_app. destruct (lookup d k); [reflexivity|].
    cbn [lookup]. now rewrite Hk.
Qed.

(** X18.  [add_accepts] sets [Accept] to the comma-joined list, or to
    [*/*] for an empty or missing list, and changes no other entry of the
    headers; without headers it makes a mapping with that one entry. *)
Theorem add_accepts_changes_accept_only (accept : option (list ustr))
        (headers : pydict pyval) (k : pyval) :
  key_eqb (VStr (u "Accept")) k = false ->
  lookup (add_accepts accept (Some headers)) k = lookup headers k
  /\ lookup (add_accepts accept (Some headers)) (VStr (u "Accept"))
     = Some (VStr (accept_value accept))
  /\ dict_wf (add_accepts accept (Some headers)) = dict_wf headers
  /\ add_accepts accept None
     = [Some (VStr (u "Accept"), VStr (accept_value accept))].
Proof.
  intros N.
  assert (E : forall h,
             add_accepts accept (Some h)
             = setitem h (VStr (u "Accept")) (VStr (accept_value accept))).
  { intros h. unfold add_accepts, accept_value, default. cbn [or_empty].
    destruct accept as [[|a l]|]; reflexivity. }
  rewrite !E. repeat split.
  - now apply lookup_setitem_str_other.
  - apply lookup_setitem_same.
  - destruct (dict_wf headers) eqn:W; [now apply wf_setitem|].
    unfold setitem.
    destruct (contains headers (VStr (u "Accept"))) eqn:C.
    + now rewrite wf_replace.
    + clear C. induction headers as [|[[k0 v0]|] d IH]; simpl in *;
        try discriminate.
      * apply andb_false_iff in W as [W|W].
        -- apply negb_false_iff in W.
           now rewrite contains_app, W.
        -- rewrite (IH W). apply andb_false_r.
      * auto.
  - unfold add_accepts, accept_value, default.
    destruct accept as [[|a l]|]; reflexivity.
Qed.

Lemma add_accepts_changes_accept_only_witness :
  lookup (add_accepts (Some [u "text/plain"; u "text/html"])
                      (Some (dict_of [(VStr (u "Accept"), VStr (u "x/y"));
                                      (VStr (u "X-Id"), VInt 7)])))
         (VStr (u "X-Id"))
  = lookup (dict_of [(VStr (u "Accept"), VStr (u "x/y"));
                     (VStr (u "X-Id"), VInt 7)])
           (VStr (u "X-Id")).
Proof.
  apply (add_accepts_changes_accept_only
           (Some [u "text/plain"; u "text/html"])
           (dict_of [(VStr (u "Accept"), VStr (u "x/y"));
                     (VStr (u "X-Id"), VInt 7)])
           (VStr (u "X-Id"))).
  reflexivity.
Defined.

Lemma app_self_snoc {A} (l : list A) (x : A) : l <> l ++ [x].
Proof.
  intros E. apply (f_equal (@List.length A)) in E.
  rewrite length_app in E. simpl in E. lia.
Qed.

Section HeadersThrough.
Context `{RT : Runtime}.

Lemma encode_params_headers (method : ustr) (params headers hs : pydict pyval)
      (s : ustr) :
  encode_params method params headers = Ok (hs, s) ->
  hs = headers
  \/ hs = setitem headers (VStr (u "Content-Type"))
                  (VStr (u "application/x-www-form-urlencoded")).
Proof.
  unfold encode_params.
  destruct (is_post_or_put method
            && negb (contains headers (VStr (u "Content-Type")))).
  - destruct (fix_params (Some params)) as [p|e]; simpl; [|discriminate].
    destruct (urlencode p); simpl; [|discriminate].
    intros [= <- <-]. now right.
  - destruct (and_then _ _) as [[|]|]; simpl; [| |discriminate].
    + destruct (json_dumps params); simpl; [|discriminate].
      intros [= <- <-]. now left.
    + destruct (fix_params (Some params)) as [p|e]; simpl; [|discriminate].
      destruct (urlencode p); simpl; [|discriminate].
      intros [= <- <-]. now left.
Qed.
End HeadersThrough.

(** X19.  When the caller's headers are ASCII-only text under ASCII-only
    names, every one of them other than [Accept], [Content-Type] and
    [Content-Length] is on the request that reaches the transport, under
    the same name, with the value given through [str]. *)
Theorem caller_headers_reach_the_transport `{RT : Runtime}
        (url method : ustr) (params : option (pydict pyval))
        (files : option (pydict upload)) (accept : option (list ustr))
        (headers : pydict pyval) (resp : bool)
        (credentials : option (pyval * pyval))
        (httplib_params : option (pydict pyval)) (w : world)
        (req : request) (name : ustr) (v : pyval) :
  dict_wf headers = true ->
  forallb (fun kv => clean_header (fst kv) (snd kv)) (items headers) = true ->
  is_ascii (accept_value accept) = true ->
  sent (snd (rest_invoke url method params files accept (Some headers) false
                         resp None credentials httplib_params w))
  = sent w ++ [req] ->
  lookup headers (VStr name) = Some v ->
  list_eqb (u "Accept") name = false ->
  list_eqb (u "Content-Type") name = false ->
  list_eqb (u "Content-Length") name = false ->
  lookup (req_headers req) (VStr name) = Some (stringify v).
Proof.
  intros W C A S L N1 N2 N3. unfold rest_invoke in S.
  destruct (dict_truthy (or_empty files)) eqn:F.
  - destruct (_rest_invoke_files url method params files accept
                (Some headers) resp None credentials httplib_params w F)
      as [e E].
    rewrite E in S. cbn [snd] in S. now apply app_self_snoc in S.
  - rewrite _rest_invoke_plain in S by assumption.
    destruct (prepare url method params accept (Some headers) None)
      as [[[[[[m s] host] path] h] scheme]|e] eqn:P.
    2:{ cbn [snd] in S. now apply app_self_snoc in S. }
    rewrite non_multipart_exact in S. cbn [snd sent] in S.
    apply app_inj_tail in S as [_ <-].
    unfold non_multipart_request. cbn [req_headers].
    rewrite lookup_setitem_other by assumption.
    unfold prepare in P. cbn [rbind or_empty] in P.
    rewrite add_accepts_eq in P.
    set (hA := setitem headers (VStr (u "Accept"))
                       (VStr (accept_value accept))) in *.
    assert (WA : dict_wf hA = true) by now apply wf_setitem.
    assert (CA : forallb (fun kv => clean_header (fst kv) (snd kv))
                         (items hA) = true).
    { apply forallb_items_setitem; [assumption|].
      unfold clean_header. simpl. now rewrite A. }
    assert (LA : lookup hA (VStr name) = Some v).
    { unfold hA. now rewrite lookup_setitem_other by assumption. }
    destruct (encode_params method (or_empty params) hA) as [[hs s0]|e] eqn:E;
      cbn [rbind] in P; [|discriminate].
    assert (X : dict_wf hs = true
                /\ forallb (fun kv => clean_header (fst kv) (snd kv))
                           (items hs) = true
                /\ lookup hs (VStr name) = Some v).
    { apply encode_params_headers in E as [->| ->]; [now repeat split|].
      repeat split.
      - now apply wf_setitem.
      - now apply forallb_items_setitem.
      - now rewrite lookup_setitem_other by assumption. }
    destruct X as (Ws & Cs & Ls).
    destruct (extract_host url); cbn [rbind] in P; [|discriminate].
    destruct (extract_path url); cbn [rbind] in P; [|discriminate].
    rewrite (fix_headers_clean hs Ws Cs) in P. cbn [rbind] in P.
    destruct (extract_scheme url); cbn [rbind] in P; [|discriminate].
    injection P as <- <- <- <- <- <-.
    now rewrite lookup_dict_map, Ls.
Qed.

Lemma caller_headers_reach_the_transport_witness :
  lookup
    (req_headers
       (non_multipart_request
          [] (u "localhost:9090") (u "GET") (u "/") 
          [Some (VStr (u "X-Trace"), VStr (u "7"));
           Some (VStr (u "Accept"), VStr (u "*/*"))]
          (u "http") None []))
    (VStr (u "X-Trace"))
  = Some (stringify (VInt 7)).
Proof.
  apply (@caller_headers_reach_the_transport
           (Ref.runtime (Ref.answers (u "text/plain") (u "ok")))
           (u "http://localhost:9090/") (u "GET") None None None
           (dict_of [(VStr (u "X-Trace"), VInt 7)])
           false None None Ref.start
           (non_multipart_request
              [] (u "localhost:9090") (u "GET") (u "/")
              [Some (VStr (u "X-Trace"), VStr (u "7"));
               Some (VStr (u "Accept"), VStr (u "*/*"))]
              (u "http") None [])
           (u "X-Trace") (VInt 7));
    reflexivity.
Defined.
